(** * thesis-code: change events derived from two OSM snapshots

    A shallow embedding of the Python sources [thesis/events.py],
    [thesis/api/ogr.py], [thesis/api/osc.py] and
    [thesis/api/event_store.py] and of the event messages they build, with
    the properties of the change-derivation pipeline proved about them.

    Python exceptions are values of [exn]; a function that can raise returns
    a [result].  Module-level state ([_blacklist], the event store flags) is
    passed explicitly. *)

From Stdlib Require Import ZArith List Lia.
From stdpp Require Import base option list strings pretty gmap.

Local Open Scope string_scope.
Local Open Scope list_scope.
Local Open Scope Z_scope.

(** ** Exceptions and results *)

Inductive exn : Type :=
| ValueError (msg : string)
| TypeError (msg : string)
| NameError (name : string)
| AttributeError (msg : string)
| RuntimeError (msg : string)
| NotImplementedError
| GeometryTypeMismatchError (gtype1 gtype2 : string)
| JSONDecodeError (msg : string)
| KeyError (key : string)
| OSError (msg : string).

Inductive result (A : Type) : Type :=
| Ok (a : A)
| Raise (e : exn).
Arguments Ok {A} a.
Arguments Raise {A} e.

#[export] Instance result_ret : MRet result := fun A a => Ok a.
#[export] Instance result_bind : MBind result := fun A B f r =>
  match r with
  | Ok a => f a
  | Raise e => Raise e
  end.

Definition is_ok {A} (r : result A) : bool :=
  match r with Ok _ => true | Raise _ => false end.

(** ** Patch messages of the wire schema *)

(** [Point]: lon and lat as sfixed32 at scale 1e7. *)
Record Point : Type := { lon : Z; lat : Z }.

Inductive Command : Type := CHANGE | DELETE | INSERT.

(** [LineStringPatch]: three repeated fields of equal length. *)
Record LineStringPatch : Type :=
  { index : list Z; command : list Command; vector : list Point }.

#[export] Instance Point_eq_dec : EqDecision Point.
Proof. solve_decision. Defined.
#[export] Instance Command_eq_dec : EqDecision Command.
Proof. solve_decision. Defined.

(** ** Features of a snapshot (osgeo.ogr) *)

Inductive OGRwkbGeometryType : Type :=
| wkbPoint | wkbLineString | wkbPolygon
| wkbMultiPoint | wkbMultiLineString | wkbMultiPolygon
| wkbGeometryCollection.

#[export] Instance OGRwkbGeometryType_eq_dec : EqDecision OGRwkbGeometryType.
Proof. solve_decision. Defined.

(** The integer behind each constant, as an f-string prints it. *)
Definition wkb_code (t : OGRwkbGeometryType) : Z :=
  match t with
  | wkbPoint => 1 | wkbLineString => 2 | wkbPolygon => 3
  | wkbMultiPoint => 4 | wkbMultiLineString => 5 | wkbMultiPolygon => 6
  | wkbGeometryCollection => 7
  end.

Record Geometry : Type :=
  { GetGeometryType : OGRwkbGeometryType; ExportToWkt : string }.

Definition GetGeometryName (g : Geometry) : string :=
  match GetGeometryType g with
  | wkbPoint => "POINT" | wkbLineString => "LINESTRING"
  | wkbPolygon => "POLYGON" | wkbMultiPoint => "MULTIPOINT"
  | wkbMultiLineString => "MULTILINESTRING"
  | wkbMultiPolygon => "MULTIPOLYGON"
  | wkbGeometryCollection => "GEOMETRYCOLLECTION"
  end.

(** A feature: its FID, the three fields the events read (each may be
    unset) and its geometry, if it has one. *)
Record Feature : Type :=
  { GetFID : Z;
    osm_timestamp : option string;
    osm_version : option Z;
    all_tags : option string;
    GetGeometryRef : option Geometry }.

(** The field getters return a default for an unset field. *)
Definition GetFieldAsInteger (field : Feature -> option Z) (f : Feature) : Z :=
  default 0 (field f).
Definition GetFieldAsString (field : Feature -> option string) (f : Feature)
    : string := default "" (field f).
Definition GetFieldAsISO8601DateTime (field : Feature -> option string)
    (f : Feature) : string := default "" (field f).

(** A method call on the geometry of a feature that has none fails on
    [None]. *)
Definition geometry_of (f : Feature) : result Geometry :=
  match GetGeometryRef f with
  | Some g => Ok g
  | None => Raise (AttributeError "'NoneType' object has no attribute")
  end.

(** Truth value of a string in a condition. *)
Definition truthy (s : string) : bool := negb (String.eqb s "").

(** ** Event messages of the wire schema *)

Record Timestamp : Type := { seconds : Z; nanos : Z }.

Record Properties : Type := { key : list string; value : list string }.

Module LineString.
Record t : Type := { lon : list Z; lat : list Z }.
End LineString.

Module Polygon.
Record t : Type := { lon : list Z; lat : list Z }.
End Polygon.

Inductive GeometryOneof : Type :=
| point (p : Point)
| linestring (l : LineString.t)
| polygon (p : Polygon.t).

Module CreationEvent.
Record t : Type :=
  { id : Z; version : Z; timestamp : Timestamp;
    properties : Properties; geometry : GeometryOneof }.
End CreationEvent.

Inductive PatchOneof : Type :=
| point_patch (p : Point)
| linestring_patch (p : LineStringPatch).

Module ModificationEvent.
Record t : Type :=
  { id : Z; version : Z; timestamp : Timestamp; patch : PatchOneof }.
End ModificationEvent.

Module DeletionEvent.
Record t : Type := { id : Z }.
End DeletionEvent.

Inductive Event : Type :=
| Creation (e : CreationEvent.t)
| Modification (e : ModificationEvent.t)
| Deletion (e : DeletionEvent.t).

(** A parsed tag blob: the items of the dict in insertion order. *)
Definition Tags : Type := list (string * string).

(** [!=] on two dicts compares them as maps, whatever the insertion order. *)
Definition dict_ne (d1 d2 : Tags) : bool :=
  bool_decide (list_to_map d1 ≠@{gmap string string} list_to_map d2).

(** ** Collaborators outside the sources

    The standard library ([json], [datetime], [open]) and the modules of the
    package that the events call into: [thesis.geo], [thesis.gisevents],
    [thesis.geodiff] and the serializer of the generated messages. *)
Class Collaborators : Type :=
  { validate_osm_feature : Feature -> result unit;
    (** [datetime.fromisoformat] followed by [Timestamp.FromDatetime] *)
    fromisoformat : string -> result Timestamp;
    json_loads : string -> result Tags;
    to_point_message : Geometry -> Point;
    to_linestring_message : Geometry -> LineString.t;
    to_polygon_message : Geometry -> Polygon.t;
    (** the value [geodiff.diff_points] returns *)
    point_diff : Type;
    diff_points : string -> string -> result point_diff;
    (** [to_point_message] of the module the point branch names *)
    utils_to_point_message : point_diff -> Point;
    SerializeToString : Event -> list Byte.byte;
    (** whether [open(path, "wb")] succeeds *)
    open_wb : string -> result unit }.

(** ** thesis/events.py *)

(** The names bound at module level of events.py: its imports, its logger
    and its definitions. *)
Definition events_globals : list string :=
  [ "json"; "logging"; "datetime"; "Optional"; "cast"; "Timestamp"; "ogr";
    "geo"; "gisevents"; "event_store"; "geodiff";
    "GeometryTypeMismatchError"; "_logger"; "_validate_creation_event_args";
    "creation_event"; "_validate_modification_args"; "modification_event";
    "deletion_event"; "initialize_eventstore_from_snapshot" ].

(** A call through a module of the namespace [ns], as in
    [geodiff.diff_points(...)]: a module name that no import binds raises
    [NameError]; otherwise the call [k] is made. *)
Definition global {A} (ns : list string) (name : string) (k : result A)
    : result A :=
  if existsb (String.eqb name) ns then k else Raise (NameError name).

Section Events.
Context `{Collaborators}.

Definition _validate_creation_event_args : Feature -> result unit :=
  validate_osm_feature.

Definition tag_properties (all_tags : Tags) : Properties :=
  {| key := map fst all_tags; value := map snd all_tags |}.

Definition creation_event (feature : Feature) : result CreationEvent.t :=
  _ ← _validate_creation_event_args feature;
  _ ← global events_globals "gisevents" (Ok tt);
  let fid := GetFID feature in
  dt ← global events_globals "datetime"
         (fromisoformat (GetFieldAsISO8601DateTime osm_timestamp feature));
  let version := GetFieldAsInteger osm_version feature in
  let all_tags_str := GetFieldAsString all_tags feature in
  props ← (if truthy all_tags_str
           then tags ← global events_globals "json" (json_loads all_tags_str);
                Ok (tag_properties tags)
           else Ok {| key := []; value := [] |});
  geom ← geometry_of feature;
  let event g :=
    {| CreationEvent.id := fid; CreationEvent.version := version;
       CreationEvent.timestamp := dt; CreationEvent.properties := props;
       CreationEvent.geometry := g |} in
  match GetGeometryType geom with
  | wkbPoint =>
      global events_globals "gisevents"
        (Ok (event (point (to_point_message geom))))
  | wkbLineString =>
      global events_globals "gisevents"
        (Ok (event (linestring (to_linestring_message geom))))
  | wkbPolygon =>
      global events_globals "gisevents"
        (Ok (event (polygon (to_polygon_message geom))))
  | t =>
      Raise (ValueError ("Unsupported geometry type: " +:+ pretty (wkb_code t)))
  end.

Definition _validate_modification_args (prev_feature curr_feature : Feature)
    : result unit :=
  if bool_decide (GetFID prev_feature ≠ GetFID curr_feature)
  then Raise (ValueError "FID mismatch.")
  else
    prev_geom ← geometry_of prev_feature;
    curr_geom ← geometry_of curr_feature;
    if bool_decide (GetGeometryType prev_geom ≠ GetGeometryType curr_geom)
    then
      let gtype1 := GetGeometryName prev_geom in
      let gtype2 := GetGeometryName curr_geom in
      Raise (GeometryTypeMismatchError gtype1 gtype2)
    else
      let prev_version := GetFieldAsInteger osm_version prev_feature in
      let curr_version := GetFieldAsInteger osm_version curr_feature in
      if bool_decide (curr_version ≠ prev_version + 1)
      then Raise (ValueError
             ("Version number of the second feature argument must be one "
              +:+ "more than the first argument's. Versions were "
              +:+ pretty prev_version +:+ " and " +:+ pretty curr_version
              +:+ "."))
      else Ok tt.

(** [modification_event] in a module whose namespace is [ns]. *)
Definition modification_event_in (ns : list string)
    (prev_feature curr_feature : Feature) : result ModificationEvent.t :=
  _ ← _validate_modification_args prev_feature curr_feature;
  _ ← global ns "gisevents" (Ok tt);
  let fid := GetFID prev_feature in
  let version := GetFieldAsInteger osm_version curr_feature in
  ts ← global ns "datetime"
         (fromisoformat
            (GetFieldAsISO8601DateTime osm_timestamp curr_feature));
  prev_geom ← geometry_of prev_feature;
  curr_geom ← geometry_of curr_feature;
  let prev_geom_wkt := ExportToWkt prev_geom in
  let curr_geom_wkt := ExportToWkt curr_geom in
  let geom_type := GetGeometryType prev_geom in
  patch ← match geom_type with
          | wkbPoint =>
              diff ← global ns "geodiff"
                       (diff_points prev_geom_wkt curr_geom_wkt);
              global ns "utils"
                (Ok (point_patch (utils_to_point_message diff)))
          | _ =>
              Raise (TypeError
                ("Unsupported geometry type: " +:+ pretty (wkb_code geom_type)))
          end;
  prev_props ← global ns "json"
                 (json_loads (GetFieldAsString all_tags prev_feature));
  curr_props ← global ns "json"
                 (json_loads (GetFieldAsString all_tags curr_feature));
  if dict_ne prev_props curr_props
  then Raise NotImplementedError
  else Ok {| ModificationEvent.id := fid;
             ModificationEvent.version := version;
             ModificationEvent.timestamp := ts;
             ModificationEvent.patch := patch |}.

(** The function of the module: its names are looked up in the globals of
    events.py. *)
Definition modification_event : Feature -> Feature -> result ModificationEvent.t :=
  modification_event_in events_globals.

Definition deletion_event (feature : Feature) : result DeletionEvent.t :=
  Raise NotImplementedError.

End Events.

(** ** Data sources (osgeo.ogr) *)

(** A layer holds its features in iteration order; a data source maps layer
    names to layers. *)
Abbreviation Layer := (list Feature).

Definition GetFeature (layer : Layer) (fid : Z) : option Feature :=
  snd <$> list_find (fun f => GetFID f = fid) layer.

(** The first call of [GetNextFeature] on a layer. *)
Definition GetNextFeature (layer : Layer) : option Feature := head layer.

(** [GetLayerByName] gives [None] for a name the source lacks, and the
    method call that follows fails on it. *)
Definition layer_by_name (ds : gmap string Layer) (name : string)
    : result Layer :=
  match ds !! name with
  | Some layer => Ok layer
  | None => Raise (AttributeError "'NoneType' object has no attribute")
  end.

(** ** thesis/api/event_store.py *)

Module EventStore.

Definition DEFAULT_CONFIG : gmap string string :=
  {[ "event_store_path" := "events.pbf" ]}.

(** The module globals, the files written so far and the warnings
    issued.  [_writer] is only annotated at module level: [None] stands
    for the unbound name. *)
Record BufferedWriter : Type := { name : string; closed : bool }.

Record module_state : Type :=
  { _config : gmap string string;
    _configured : bool;
    _initialized : bool;
    _writer : option BufferedWriter;
    disk : gmap string (list Byte.byte);
    warned : list string }.

Definition on_import (files : gmap string (list Byte.byte)) : module_state :=
  {| _config := DEFAULT_CONFIG; _configured := false;
     _initialized := false; _writer := None;
     disk := files; warned := [] |}.

(** Truth value of an optional dict in a condition. *)
Definition dict_truthy (config : option (gmap string string)) : bool :=
  match config with
  | Some c => negb (bool_decide (c = ∅))
  | None => false
  end.

Definition warn (msg : string) (st : module_state) : module_state :=
  {| _config := _config st; _configured := _configured st;
     _initialized := _initialized st; _writer := _writer st;
     disk := disk st; warned := warned st ++ [msg] |}.

Definition update_config (config : gmap string string) (st : module_state)
    : module_state :=
  {| _config := config ∪ _config st; _configured := _configured st;
     _initialized := _initialized st; _writer := _writer st;
     disk := disk st; warned := warned st |}.

Definition configure (config : option (gmap string string))
    (st : module_state) : module_state :=
  let st1 :=
    if _configured st
    then warn "Event store already configured. You should not call configure more than once." st
    else st in
  let st2 :=
    match config with
    | Some c => if dict_truthy config then update_config c st1 else st1
    | None => st1
    end in
  {| _config := _config st2; _configured := true;
     _initialized := _initialized st2; _writer := _writer st2;
     disk := disk st2; warned := warned st2 |}.

Section WithCollaborators.
Context `{Collaborators}.

Definition write_one (st : module_state) (event : Event)
    : result module_state :=
  match _writer st with
  | None => Raise (NameError "_writer")
  | Some w =>
      if closed w then Raise (ValueError "write to closed file")
      else
        Ok {| _config := _config st; _configured := _configured st;
              _initialized := _initialized st; _writer := _writer st;
              disk := <[ name w := default [] (disk st !! name w)
                                     ++ SerializeToString event ]> (disk st);
              warned := warned st |}
  end.

Fixpoint write_all (events : list Event) (st : module_state)
    : module_state * result unit :=
  match events with
  | [] => (st, Ok tt)
  | event :: rest =>
      match write_one st event with
      | Ok st' => write_all rest st'
      | Raise e => (st, Raise e)
      end
  end.

Definition write_events (events : list Event) (st : module_state)
    : module_state * result unit :=
  if negb (_initialized st)
  then (st, Raise (RuntimeError "Event store not initialized"))
  else write_all events st.

(** [init] returns -1 when the store is initialized already and
    nothing otherwise. *)
Definition init (config : option (gmap string string))
    (st : module_state) : module_state * result (option Z) :=
  if _initialized st
  then (st, Ok (Some (-1)))
  else
    let st1 :=
      match config with
      | Some c => if _configured st then update_config c st
                  else configure config st
      | None => configure config st
      end in
    match _config st1 !! "event_store_path" with
    | None => (st1, Raise (KeyError "event_store_path"))
    | Some path =>
        match open_wb path with
        | Raise e => (st1, Raise e)
        | Ok _ =>
            ({| _config := _config st1; _configured := _configured st1;
                _initialized := _initialized st1;
                _writer := Some {| name := path; closed := false |};
                disk := <[ path := [] ]> (disk st1);
                warned := warned st1 |}, Ok None)
        end
    end.

Definition teardown (st : module_state) : module_state * result unit :=
  if _initialized st
  then
    match _writer st with
    | None => (st, Raise (NameError "_writer"))
    | Some w =>
        ({| _config := _config st; _configured := _configured st;
            _initialized := _initialized st;
            _writer := Some {| name := name w; closed := true |};
            disk := disk st; warned := warned st |}, Ok tt)
    end
  else (st, Ok tt).

(** A call of one of the module's functions by a client. *)
Inductive call : Type :=
| call_configure (config : option (gmap string string))
| call_init (config : option (gmap string string))
| call_write_events (events : list Event)
| call_teardown.

(** The module state after a call; an exception the call raises is
    left to the client. *)
Definition after (st : module_state) (c : call) : module_state :=
  match c with
  | call_configure config => configure config st
  | call_init config => fst (init config st)
  | call_write_events events => fst (write_events events st)
  | call_teardown => fst (teardown st)
  end.

Definition after_all (calls : list call) (st : module_state)
    : module_state := fold_left after calls st.

End WithCollaborators.
End EventStore.

(** ** thesis/events.py: the event store from a snapshot *)

Module Snapshot.
Section WithCollaborators.
Context `{Collaborators}.

(** Where control is in [initialize_eventstore_from_snapshot]: at the
    head of the [for] over the layer names still to visit, at the test
    of the [while] with the current [feature], or past the end. *)
Inductive control : Type :=
| ForLayer (layer_names : list string) (events : list CreationEvent.t)
| While (layer_names : list string) (feature : option Feature)
    (events : list CreationEvent.t)
| Return (r : result unit) (store : EventStore.module_state).

Definition step (ds : gmap string Layer) (store : EventStore.module_state)
    (c : control) : control :=
  match c with
  | ForLayer [] events =>
      let '(store', r) :=
        EventStore.write_events (map Creation events) store in
      Return r store'
  | ForLayer (layer_name :: rest) events =>
      match layer_by_name ds layer_name with
      | Ok layer => While rest (GetNextFeature layer) events
      | Raise e => Return (Raise e) store
      end
  | While rest None events => ForLayer rest events
  | While rest (Some feature) events =>
      match creation_event feature with
      | Ok event => While rest (Some feature) (events ++ [event])
      | Raise e => Return (Raise e) store
      end
  | Return r store' => Return r store'
  end.

(** Control when the function is entered. *)
Definition start : control :=
  ForLayer ["points"; "lines"; "linearrings"] [].

Definition steps (n : nat) (ds : gmap string Layer)
    (store : EventStore.module_state) : control :=
  Nat.iter n (step ds store) start.

(** The outcome of the call if it is over within [fuel] steps. *)
Definition initialize_eventstore_from_snapshot (fuel : nat)
    (ds : gmap string Layer) (store : EventStore.module_state)
    : option (result unit * EventStore.module_state) :=
  match steps fuel ds store with
  | Return r store' => Some (r, store')
  | _ => None
  end.

End WithCollaborators.
End Snapshot.

(** ** thesis/api/ogr.py *)

Module Ogr.

(** Modelled from the spec: [ElementType] of [thesis.types], which is not
    among the sources: the kind of an entity, one of three (spec, data
    model; osc.py reads it from the tags node, way, relation). *)
Inductive ElementType : Type := NODE | WAY | RELATION.

(** Modelled from the spec: [ChangeType] of [thesis.types]: the kind of a
    change, one of three (osc.py reads it from the tags create, modify,
    delete). *)
Inductive ChangeType : Type := CREATE | MODIFY | DELETE.

(** Modelled from the spec: [ElementIdentifier] of [thesis.types]: an
    immutable value, compared by its numeric id and its kind. *)
Record ElementIdentifier : Type := { id : Z; etype : ElementType }.

(** Modelled from the spec: [ChangeInfo] of [thesis.types]: a change kind
    with the identifier it is about. *)
Record ChangeInfo : Type :=
  { change_type : ChangeType; element_identifier : ElementIdentifier }.

#[export] Instance ElementType_eq_dec : EqDecision ElementType.
Proof. solve_decision. Defined.
#[export] Instance ElementIdentifier_eq_dec : EqDecision ElementIdentifier.
Proof. solve_decision. Defined.

Definition _find_feature (ds : gmap string Layer)
    (identifier : ElementIdentifier) : result (option Feature) :=
  match etype identifier with
  | NODE =>
      layer ← layer_by_name ds "points";
      match GetFeature layer (id identifier) with
      | Some feature => Ok (Some feature)
      | None => Ok None
      end
  | WAY | RELATION =>
      layer ← layer_by_name ds "lines";
      match GetFeature layer (id identifier) with
      | Some feature => Ok (Some feature)
      | None =>
          layer ← layer_by_name ds "linearrings";
          match GetFeature layer (id identifier) with
          | Some feature => Ok (Some feature)
          | None => Ok None
          end
      end
  end.

(** Which of the two data sources a lookup went to. *)
Inductive source : Type := prev_ds | curr_ds.

(** What a run of [find_changes] has built up: the module-level
    [_blacklist], the local [result], and the lookups made so far. *)
Record run : Type :=
  { _blacklist : list ElementIdentifier;
    result_events : list Event;
    lookups : list (source * ElementIdentifier) }.

Definition looked_up (s : source) (identifier : ElementIdentifier)
    (r : run) : run :=
  {| _blacklist := _blacklist r; result_events := result_events r;
     lookups := lookups r ++ [(s, identifier)] |}.

Definition blacklisted (identifier : ElementIdentifier) (r : run) : run :=
  {| _blacklist := _blacklist r ++ [identifier];
     result_events := result_events r; lookups := lookups r |}.

Definition appended (event : Event) (r : run) : run :=
  {| _blacklist := _blacklist r;
     result_events := result_events r ++ [event]; lookups := lookups r |}.

(** The lookups the record [change_info] makes when it is not skipped. *)
Definition traced (change_info : ChangeInfo) (r : run) : run :=
  let identifier := element_identifier change_info in
  match change_type change_info with
  | CREATE => looked_up curr_ds identifier r
  | MODIFY => looked_up curr_ds identifier (looked_up prev_ds identifier r)
  | DELETE => looked_up prev_ds identifier r
  end.

Section WithCollaborators.
Context `{Collaborators}.

(** The body of the loop over [osc_info] for one change record. *)
Definition process (prev curr : gmap string Layer) (r : run)
    (change_info : ChangeInfo) : result run :=
  let identifier := element_identifier change_info in
  if bool_decide (identifier ∈ _blacklist r) then Ok r
  else
    match change_type change_info with
    | CREATE =>
        let r := looked_up curr_ds identifier r in
        feature ← _find_feature curr identifier;
        match feature with
        | None => Ok (blacklisted identifier r)
        | Some feature =>
            event ← creation_event feature;
            Ok (appended (Creation event) r)
        end
    | MODIFY =>
        let r := looked_up prev_ds identifier r in
        feat1 ← _find_feature prev identifier;
        let r := looked_up curr_ds identifier r in
        feat2 ← _find_feature curr identifier;
        match feat1, feat2 with
        | None, _ => Ok (blacklisted identifier r)
        | Some _, None => Ok (blacklisted identifier r)
        | Some feat1, Some feat2 =>
            event ← modification_event feat1 feat2;
            Ok (appended (Modification event) r)
        end
    | DELETE =>
        let r := looked_up prev_ds identifier r in
        feature ← _find_feature prev identifier;
        match feature with
        | None => Ok (blacklisted identifier r)
        | Some feature =>
            event ← deletion_event feature;
            Ok (appended (Deletion event) r)
        end
    end.

Fixpoint process_all (prev curr : gmap string Layer)
    (osc_info : list ChangeInfo) (r : run) : result run :=
  match osc_info with
  | [] => Ok r
  | change_info :: rest =>
      r' ← process prev curr r change_info;
      process_all prev curr rest r'
  end.

(** [find_changes] on two opened data sources, from the blacklist the
    module holds when it is called. *)
Definition find_changes (prev curr : gmap string Layer)
    (osc_info : list ChangeInfo) (blacklist : list ElementIdentifier)
    : result run :=
  process_all prev curr osc_info
    {| _blacklist := blacklist; result_events := []; lookups := [] |}.

(** The event of a change record when its lookups return: [Ok None] when a
    feature it requires is not found, the built event, or the error of its
    builder, when they all are. *)
Definition event_for (prev curr : gmap string Layer)
    (change_info : ChangeInfo) : result (option Event) :=
  let identifier := element_identifier change_info in
  match change_type change_info with
  | CREATE =>
      feature ← _find_feature curr identifier;
      match feature with
      | None => Ok None
      | Some feature => event ← creation_event feature;
                        Ok (Some (Creation event))
      end
  | MODIFY =>
      feat1 ← _find_feature prev identifier;
      feat2 ← _find_feature curr identifier;
      match feat1, feat2 with
      | Some feat1, Some feat2 =>
          event ← modification_event feat1 feat2;
          Ok (Some (Modification event))
      | _, _ => Ok None
      end
  | DELETE =>
      feature ← _find_feature prev identifier;
      match feature with
      | None => Ok None
      | Some feature => event ← deletion_event feature;
                        Ok (Some (Deletion event))
      end
  end.

(** The records of [osc_info] that are neither blacklisted when their
    turn comes nor miss a feature, in input order. *)
Fixpoint surviving (prev curr : gmap string Layer)
    (osc_info : list ChangeInfo) (blacklist : list ElementIdentifier)
    : list ChangeInfo :=
  match osc_info with
  | [] => []
  | change_info :: rest =>
      if bool_decide (element_identifier change_info ∈ blacklist)
      then surviving prev curr rest blacklist
      else
        match event_for prev curr change_info with
        | Ok None =>
            surviving prev curr rest
              (blacklist ++ [element_identifier change_info])
        | _ => change_info :: surviving prev curr rest blacklist
        end
  end.

End WithCollaborators.
End Ogr.

(** ** Collaborators and features of the tests

    One instance of the collaborators, fixed on the inputs the tests use,
    and features built like the fixtures of tests/test_events.py. *)

Module Sample.

Definition quote : string := String (Ascii.ascii_of_nat 34) EmptyString.

(** The blob [json.dumps] gives for the dict testKey: testValue. *)
Definition test_tags : string :=
  "{" +:+ quote +:+ "testKey" +:+ quote +:+ ": "
      +:+ quote +:+ "testValue" +:+ quote +:+ "}".

Definition wkt_point (wkt : string) : Point :=
  if String.eqb wkt "POINT (1 2)" then {| lon := 10000000; lat := 20000000 |}
  else if String.eqb wkt "POINT (1 1)" then {| lon := 10000000; lat := 10000000 |}
  else if String.eqb wkt "POINT (2 2)" then {| lon := 20000000; lat := 20000000 |}
  else {| lon := 0; lat := 0 |}.

#[global] Instance collaborators : Collaborators :=
  {| validate_osm_feature f :=
       match osm_version f with
       | Some _ => Ok tt
       | None => Raise (ValueError "Feature has no osm_version")
       end;
     fromisoformat s :=
       if String.eqb s "2023-01-01T00:00:00Z"
       then Ok {| seconds := 1672531200; nanos := 0 |}
       else Raise (ValueError ("Invalid isoformat string: " +:+ s));
     json_loads s :=
       if String.eqb s "{}" then Ok []
       else if String.eqb s test_tags then Ok [("testKey", "testValue")]
       else Raise (JSONDecodeError "Expecting value");
     to_point_message g := wkt_point (ExportToWkt g);
     to_linestring_message g :=
       if String.eqb (ExportToWkt g) "LINESTRING (1 2, 2 2)"
       then {| LineString.lon := [10000000; 10000000];
               LineString.lat := [20000000; 0] |}
       else {| LineString.lon := []; LineString.lat := [] |};
     to_polygon_message g := {| Polygon.lon := []; Polygon.lat := [] |};
     point_diff := Point;
     diff_points prev curr :=
       Ok {| lon := lon (wkt_point curr) - lon (wkt_point prev);
             lat := lat (wkt_point curr) - lat (wkt_point prev) |};
     utils_to_point_message d := d;
     SerializeToString e := [];
     open_wb path := Ok tt |}.

Definition feature (fid : Z) (version : option Z) (tags : option string)
    (kind : OGRwkbGeometryType) (wkt : string) : Feature :=
  {| GetFID := fid;
     osm_timestamp := Some "2023-01-01T00:00:00Z";
     osm_version := version;
     all_tags := tags;
     GetGeometryRef := Some {| GetGeometryType := kind; ExportToWkt := wkt |} |}.

Definition point_feature_1 : Feature :=
  feature 1 (Some 1) (Some "{}") wkbPoint "POINT (1 1)".
Definition point_feature_1_v2 : Feature :=
  feature 1 (Some 2) (Some "{}") wkbPoint "POINT (2 2)".
Definition point_feature_1_v2_tagged : Feature :=
  feature 1 (Some 2) (Some test_tags) wkbPoint "POINT (2 2)".
Definition point_feature_without_version : Feature :=
  feature 1 None (Some "{}") wkbPoint "POINT (1 1)".
Definition point_feature_untagged : Feature :=
  feature 5 (Some 2) None wkbPoint "POINT (1 2)".
Definition linestring_feature_1 : Feature :=
  feature 1 (Some 1) (Some "{}") wkbLineString "LINESTRING (1 2, 2 2)".
Definition linestring_feature_1_v2 : Feature :=
  feature 1 (Some 2) (Some test_tags) wkbLineString "LINESTRING (1 2, 3 2)".
Definition multipolygon_feature_untagged : Feature :=
  feature 1 (Some 1) None wkbMultiPolygon
    "MULTIPOLYGON (((1 1, 1 2, 2 2, 2 1, 1 1)))".

(** Two snapshots and a change log over them. *)
Definition prev_snapshot : gmap string Layer :=
  {[ "points" := []; "lines" := []; "linearrings" := [] ]}.
Definition curr_snapshot : gmap string Layer :=
  {[ "points" := [point_feature_untagged];
     "lines" := [linestring_feature_1];
     "linearrings" := [] ]}.
Definition unversioned_snapshot : gmap string Layer :=
  {[ "points" := [point_feature_without_version];
     "lines" := []; "linearrings" := [] ]}.

Definition create_node_5 : Ogr.ChangeInfo :=
  {| Ogr.change_type := Ogr.CREATE;
     Ogr.element_identifier := {| Ogr.id := 5; Ogr.etype := Ogr.NODE |} |}.
Definition create_node_7 : Ogr.ChangeInfo :=
  {| Ogr.change_type := Ogr.CREATE;
     Ogr.element_identifier := {| Ogr.id := 7; Ogr.etype := Ogr.NODE |} |}.
Definition create_way_1 : Ogr.ChangeInfo :=
  {| Ogr.change_type := Ogr.CREATE;
     Ogr.element_identifier := {| Ogr.id := 1; Ogr.etype := Ogr.WAY |} |}.
Definition modify_node_7 : Ogr.ChangeInfo :=
  {| Ogr.change_type := Ogr.MODIFY;
     Ogr.element_identifier := {| Ogr.id := 7; Ogr.etype := Ogr.NODE |} |}.

Definition osc_info : list Ogr.ChangeInfo :=
  [create_node_5; create_node_7; create_way_1; modify_node_7].

End Sample.

(** The collaborators with another JSON parser. *)
Definition with_json_loads (parser : string -> result Tags)
    (C : Collaborators) : Collaborators :=
  {| validate_osm_feature := @validate_osm_feature C;
     fromisoformat := @fromisoformat C;
     json_loads := parser;
     to_point_message := @to_point_message C;
     to_linestring_message := @to_linestring_message C;
     to_polygon_message := @to_polygon_message C;
     point_diff := @point_diff C;
     diff_points := @diff_points C;
     utils_to_point_message := @utils_to_point_message C;
     SerializeToString := @SerializeToString C;
     open_wb := @open_wb C |}.

(** ** thesis/api/osc.py *)

Module Osc.
Import Ogr.

(** An element of the parsed change file: its tag, its attributes and its
    child elements in document order. *)
#[warnings="-register-all"]
Inductive Element : Type :=
| mkElement (tag : string) (attrib : gmap string string)
    (children : list Element).

Definition tag (e : Element) : string :=
  match e with mkElement t _ _ => t end.
Definition attrib (e : Element) : gmap string string :=
  match e with mkElement _ a _ => a end.
Definition children (e : Element) : list Element :=
  match e with mkElement _ _ c => c end.

(** Modelled from the spec: the lookup by name [ChangeType[...]] of the
    enumeration of [thesis.osm], which is not among the sources; its
    members are the three that ogr.py names. *)
Definition ChangeType_getitem (name : string) : result ChangeType :=
  if String.eqb name "CREATE" then Ok CREATE
  else if String.eqb name "MODIFY" then Ok MODIFY
  else if String.eqb name "DELETE" then Ok DELETE
  else Raise (KeyError name).

(** Modelled from the spec: the lookup by name [ElementType[...]] of the
    enumeration of [thesis.osm]; its members are the three that ogr.py
    names. *)
Definition ElementType_getitem (name : string) : result ElementType :=
  if String.eqb name "NODE" then Ok NODE
  else if String.eqb name "WAY" then Ok WAY
  else if String.eqb name "RELATION" then Ok RELATION
  else Raise (KeyError name).

Section Parser.
(** [str.upper] and [int] on a string, of the language. *)
Variable upper : string -> string.
Variable int : string -> result Z.

(** The body of the loop over the elements of one group. *)
Definition element_info (change_type : ChangeType) (element_tag : Element)
    : result ChangeInfo :=
  text ← match attrib element_tag !! "id" with
         | Some text => Ok text
         | None => Raise (KeyError "id")
         end;
  entity_id ← int text;
  etype ← ElementType_getitem (upper (tag element_tag));
  let idf := {| id := entity_id; etype := etype |} in
  Ok {| change_type := change_type; element_identifier := idf |}.

Fixpoint group_loop (change_type : ChangeType) (element_tags : list Element)
    (acc : list ChangeInfo) : result (list ChangeInfo) :=
  match element_tags with
  | [] => Ok acc
  | element_tag :: rest =>
      info ← element_info change_type element_tag;
      group_loop change_type rest (acc ++ [info])
  end.

Definition _get_change_info_for_group (change_tag : Element)
    : result (list ChangeInfo) :=
  change_type ← ChangeType_getitem (upper (tag change_tag));
  group_loop change_type (children change_tag) [].

Fixpoint root_loop (change_tags : list Element) (acc : list ChangeInfo)
    : result (list ChangeInfo) :=
  match change_tags with
  | [] => Ok acc
  | change_tag :: rest =>
      info ← _get_change_info_for_group change_tag;
      root_loop rest (acc ++ info)
  end.

(** [get_change_info] on the root element that [ET.parse] gives for the
    file. *)
Definition get_change_info (root : Element) : result (list ChangeInfo) :=
  root_loop (children root) [].

(** What a well-formed element of a group of kind [change_type] stands
    for. *)
Definition element_reads (change_type : ChangeType) (element_tag : Element)
    (info : ChangeInfo) : Prop :=
  exists text,
    attrib element_tag !! "id" = Some text /\
    int text = Ok (id (element_identifier info)) /\
    ElementType_getitem (upper (tag element_tag))
    = Ok (etype (element_identifier info)) /\
    Ogr.change_type info = change_type.

(** What a well-formed group stands for: one record for each of its
    elements, in document order. *)
Definition group_reads (change_tag : Element) (infos : list ChangeInfo)
    : Prop :=
  exists change_type,
    ChangeType_getitem (upper (tag change_tag)) = Ok change_type /\
    Forall2 (element_reads change_type) (children change_tag) infos.

End Parser.
End Osc.

(** ** thesis/api/ogr.py: remove_layers *)

Module OgrLayers.

(** A data source as [GetLayer] sees it: the layers by index, each with its
    name.  [DeleteLayer] removes one and moves the later ones down. *)
Abbreviation IndexedSource := (list (string * list Feature)).

(** The [while] of [remove_layers] from index [i]; [None] when [fuel]
    iterations do not end it. *)
Fixpoint remove_loop (fuel : nat) (args : list string) (i : nat)
    (ds : IndexedSource) : option (result IndexedSource) :=
  match fuel with
  | O => None
  | S fuel' =>
      if bool_decide (i < length ds)%nat then
        match ds !! i with
        | Some layer =>
            if bool_decide (fst layer ∈ args)
            then remove_loop fuel' args i (delete i ds)
            else remove_loop fuel' args (S i) ds
        | None =>
            Some (Raise (AttributeError "'NoneType' object has no attribute"))
        end
      else Some (Ok ds)
  end.

Definition remove_layers (fuel : nat) (ds : IndexedSource)
    (args : list string) : option (result IndexedSource) :=
  remove_loop fuel args 0 ds.

End OgrLayers.

(** ** thesis/api/ogr.py: the Config singleton *)

Module OgrConfig.

(** The instance of [Config].  An attribute that has not been assigned is
    [None]; [_initialized] is only ever assigned [True], so the flag stands
    for [hasattr(self, "_initialized")]. *)
Record Config : Type :=
  { _osm_conf_path : option (option string);
    _osm_max_tmpfile_size : option Z;
    _osm_out_tmp : option string;
    _initialized : bool }.

(** The class attribute [_instance], the warnings issued and the file
    descriptors closed so far. *)
Record class_state : Type :=
  { _instance : option Config;
    warned : list string;
    closed_fds : list Z }.

(** The arguments of a call [Config(...)]; [None] for one that is not
    passed. *)
Record arguments : Type :=
  { osm_conf_path : option (option string);
    osm_max_tmpfile_size : option Z }.

Definition passed (a : arguments) : bool :=
  match osm_conf_path a, osm_max_tmpfile_size a with
  | None, None => false
  | _, _ => true
  end.

Definition on_import : class_state :=
  {| _instance := None; warned := []; closed_fds := [] |}.

(** [__init__] on the instance [self]; [mkstemp] is what
    [tempfile.mkstemp] does if it is called: the descriptor and the path,
    or an error. *)
Definition __init__ (self : Config) (a : arguments)
    (mkstemp : result (Z * string)) (st : class_state)
    : class_state * result Config :=
  if _initialized self
  then
    ({| _instance := Some self;
        warned := warned st
                  ++ ["Config already initialized. Skipping reinitialization."];
        closed_fds := closed_fds st |}, Ok self)
  else
    let conf := default None (osm_conf_path a) in
    let size := default 4000 (osm_max_tmpfile_size a) in
    match mkstemp with
    | Raise e =>
        ({| _instance :=
              Some {| _osm_conf_path := Some conf;
                      _osm_max_tmpfile_size := Some size;
                      _osm_out_tmp := _osm_out_tmp self;
                      _initialized := false |};
            warned := warned st; closed_fds := closed_fds st |}, Raise e)
    | Ok (tmp_fd, osm_out_tmp) =>
        let self' :=
          {| _osm_conf_path := Some conf;
             _osm_max_tmpfile_size := Some size;
             _osm_out_tmp := Some osm_out_tmp;
             _initialized := true |} in
        ({| _instance := Some self';
            warned := warned st;
            closed_fds := if bool_decide (tmp_fd ≠ 0)
                          then closed_fds st ++ [tmp_fd]
                          else closed_fds st |}, Ok self')
    end.

(** A call [Config(...)]: [__new__], then [__init__] on what it returns.
    [__new__] hands its arguments on to [object.__new__], which takes
    none when the class has a [__new__] of its own. *)
Definition construct (a : arguments) (mkstemp : result (Z * string))
    (st : class_state) : class_state * result Config :=
  match _instance st with
  | None =>
      if passed a
      then (st, Raise (TypeError
             "object.__new__() takes exactly one argument (the type to instantiate)"))
      else
        __init__ {| _osm_conf_path := None; _osm_max_tmpfile_size := None;
                    _osm_out_tmp := None; _initialized := false |}
          a mkstemp st
  | Some self => __init__ self a mkstemp st
  end.

(** The class after a series of calls, each with what [mkstemp] would
    do. *)
Definition construct_all
    (calls : list (arguments * result (Z * string))) (st : class_state)
    : class_state :=
  fold_left (fun st c => fst (construct (fst c) (snd c) st)) calls st.

End OgrConfig.

(** ** Invariants and frames used by the properties *)

Module Invariants.

(** What holds of the event store module after any calls, from the files
    [files] it started with: it is not initialized, its config names a
    store path, a writer it holds is open, and a file is as it was or
    empty. *)
Definition store_sound (files : gmap string (list Byte.byte))
    (st : EventStore.module_state) : Prop :=
  EventStore._initialized st = false /\
  is_Some (EventStore._config st !! "event_store_path") /\
  (forall w, EventStore._writer st = Some w -> EventStore.closed w = false) /\
  (forall path, EventStore.disk st !! path = files !! path \/
                EventStore.disk st !! path = Some []).

(** The class [Config] holds no instance, or one that is initialized with
    the defaults. *)
Definition config_default (st : OgrConfig.class_state) : Prop :=
  match OgrConfig._instance st with
  | None => True
  | Some self =>
      OgrConfig._initialized self = true /\
      OgrConfig._osm_conf_path self = Some None /\
      OgrConfig._osm_max_tmpfile_size self = Some 4000
  end.

(** The warning of a call of [Config] that finds the instance
    initialized. *)
Definition msg_initialized : string :=
  "Config already initialized. Skipping reinitialization.".

(** A run of [find_changes] continued after the events [events] and the
    lookups [lks] of an earlier one. *)
Definition continued (events : list Event)
    (lks : list (Ogr.source * Ogr.ElementIdentifier)) (r : Ogr.run) : Ogr.run :=
  {| Ogr._blacklist := Ogr._blacklist r;
     Ogr.result_events := events ++ Ogr.result_events r;
     Ogr.lookups := lks ++ Ogr.lookups r |}.

(** Control of [initialize_eventstore_from_snapshot] that is not past a
    normal return. *)
Definition not_returned (c : Snapshot.control) : Prop :=
  match c with
  | Snapshot.Return (Ok _) _ => False
  | _ => True
  end.

End Invariants.

(** ** More fixtures *)

Module Fixtures.

Definition upper_char (c : Ascii.ascii) : Ascii.ascii :=
  let n := Ascii.nat_of_ascii c in
  if bool_decide (97 <= n <= 122)%nat then Ascii.ascii_of_nat (n - 32) else c.

(** [str.upper] on ASCII text. *)
Fixpoint upper (s : string) : string :=
  match s with
  | EmptyString => EmptyString
  | String c rest => String (upper_char c) (upper rest)
  end.

Fixpoint digits (s : string) (acc : Z) : option Z :=
  match s with
  | EmptyString => Some acc
  | String c rest =>
      let n := Ascii.nat_of_ascii c in
      if bool_decide (48 <= n <= 57)%nat
      then digits rest (10 * acc + Z.of_nat (n - 48))
      else None
  end.

(** [int] on plain decimal text. *)
Definition int (s : string) : result Z :=
  match s with
  | EmptyString => Raise (ValueError "invalid literal for int()")
  | _ =>
      match digits s 0 with
      | Some n => Ok n
      | None => Raise (ValueError "invalid literal for int()")
      end
  end.

Definition element (tag : string) (id : string) : Osc.Element :=
  Osc.mkElement tag {[ "id" := id ]} [].

(** A change file with two groups. *)
Definition osm_change : Osc.Element :=
  Osc.mkElement "osmChange" ∅
    [ Osc.mkElement "create" ∅ [element "node" "5"; element "way" "1"];
      Osc.mkElement "delete" ∅ [element "relation" "9"] ].

(** A change file with a group of a kind the enumeration lacks. *)
Definition osm_change_unknown : Osc.Element :=
  Osc.mkElement "osmChange" ∅
    [ Osc.mkElement "create" ∅ [element "node" "5"];
      Osc.mkElement "rename" ∅ [] ].

Definition feature_9 : Feature :=
  Sample.feature 9 (Some 1) None wkbLineString "LINESTRING (0 0, 1 1)".
Definition ring_9 : Feature :=
  Sample.feature 9 (Some 3) None wkbPolygon "POLYGON ((0 0, 0 1, 1 1, 0 0))".

(** A snapshot in which id 9 is both a line and a ring. *)
Definition overlapping_snapshot : gmap string (list Feature) :=
  {[ "points" := []; "lines" := [feature_9]; "linearrings" := [ring_9] ]}.

(** A snapshot with a line but no layer of rings. *)
Definition lines_only_snapshot : gmap string (list Feature) :=
  {[ "lines" := [feature_9] ]}.

Definition empty_snapshot : gmap string (list Feature) :=
  {[ "points" := []; "lines" := []; "linearrings" := [] ]}.

Definition indexed_source : OgrLayers.IndexedSource :=
  [ ("points", []); ("lines", [feature_9]); ("multilinestrings", []);
    ("multipolygons", []); ("linearrings", [ring_9]) ].

Definition delete_way_9 : Ogr.ChangeInfo :=
  {| Ogr.change_type := Ogr.DELETE;
     Ogr.element_identifier := {| Ogr.id := 9; Ogr.etype := Ogr.WAY |} |}.

Definition point_feature_2 : Feature :=
  Sample.feature 2 (Some 2) (Some "{}") wkbPoint "POINT (2 2)".

Definition point_feature_tagged : Feature :=
  Sample.feature 5 (Some 2) (Some Sample.test_tags) wkbPoint "POINT (1 2)".

Definition point_feature_bad_tags : Feature :=
  Sample.feature 5 (Some 2) (Some "{") wkbMultiPolygon "POINT (1 2)".

(** A snapshot that holds the line 9. *)
Definition prev_with_way_9 : gmap string (list Feature) :=
  {[ "points" := []; "lines" := [feature_9]; "linearrings" := [] ]}.

(** A change file with an element that has no id. *)
Definition osm_change_no_id : Osc.Element :=
  Osc.mkElement "osmChange" ∅
    [ Osc.mkElement "modify" ∅
        [element "node" "5"; Osc.mkElement "way" ∅ []] ].

End Fixtures.

(** * Properties *)

(** ** events.py *)

Module EventsFacts.

Lemma global_bound {A} (ns : list string) (name : string) (k : result A) :
  existsb (String.eqb name) ns = true -> global ns name k = k.
Proof. unfold global. intros ->. reflexivity. Qed.

Lemma global_unbound {A} (ns : list string) (name : string) (k : result A) :
  existsb (String.eqb name) ns = false -> global ns name k = Raise (NameError name).
Proof. unfold global. intros ->. reflexivity. Qed.

Lemma utils_unbound : existsb (String.eqb "utils") events_globals = false.
Proof. reflexivity. Qed.

Lemma GetGeometryName_inj (g1 g2 : Geometry) :
  GetGeometryName g1 = GetGeometryName g2 ->
  GetGeometryType g1 = GetGeometryType g2.
Proof.
  unfold GetGeometryName.
  destruct (GetGeometryType g1), (GetGeometryType g2);
    intros Heq; try reflexivity; discriminate Heq.
Qed.

Section WithCollaborators.
Context `{Collaborators}.

(** What validation accepts. *)
Lemma validate_modification_ok (prev curr : Feature) :
  _validate_modification_args prev curr = Ok tt ->
  GetFID prev = GetFID curr /\
  exists g1 g2,
    GetGeometryRef prev = Some g1 /\ GetGeometryRef curr = Some g2 /\
    GetGeometryType g1 = GetGeometryType g2 /\
    GetFieldAsInteger osm_version curr
    = GetFieldAsInteger osm_version prev + 1.
Proof.
  unfold _validate_modification_args, geometry_of.
  case_bool_decide as Hfid; [discriminate|].
  destruct (GetGeometryRef prev) as [g1|]; [|discriminate].
  destruct (GetGeometryRef curr) as [g2|]; [|discriminate].
  cbn [mbind result_bind].
  case_bool_decide as Hty; [discriminate|].
  case_bool_decide as Hver; [discriminate|].
  intros _. split; [by destruct (decide (GetFID prev = GetFID curr))|].
  exists g1, g2. repeat split.
  - by destruct (decide (GetGeometryType g1 = GetGeometryType g2)).
  - destruct (decide (GetFieldAsInteger osm_version curr
                      = GetFieldAsInteger osm_version prev + 1)); done.
Qed.

(** C3. For two features with equal FIDs and geometries of one kind,
    modification_event fails with the version-order ValueError whenever
    the current osm_version is not the previous one plus 1. *)
Theorem modification_event_version_order (prev curr : Feature)
    (g1 g2 : Geometry) :
  GetFID prev = GetFID curr ->
  GetGeometryRef prev = Some g1 -> GetGeometryRef curr = Some g2 ->
  GetGeometryType g1 = GetGeometryType g2 ->
  GetFieldAsInteger osm_version curr
    ≠ GetFieldAsInteger osm_version prev + 1 ->
  modification_event prev curr
  = Raise (ValueError
      ("Version number of the second feature argument must be one "
       +:+ "more than the first argument's. Versions were "
       +:+ pretty (GetFieldAsInteger osm_version prev) +:+ " and "
       +:+ pretty (GetFieldAsInteger osm_version curr) +:+ ".")).
Proof.
  intros Hfid Hg1 Hg2 Hty Hver.
  unfold modification_event, modification_event_in,
    _validate_modification_args, geometry_of.
  rewrite bool_decide_eq_false_2 by (intros Hne; apply Hne, Hfid).
  rewrite Hg1, Hg2. cbn [mbind result_bind].
  rewrite bool_decide_eq_false_2 by (intros Hne; apply Hne, Hty).
  rewrite bool_decide_eq_true_2 by exact Hver.
  reflexivity.
Qed.

(** C4. For two features with equal FIDs whose geometry kinds differ,
    modification_event fails with the geometry type mismatch error that
    carries the names of both kinds, whatever the version numbers are. *)
Theorem modification_event_kind_mismatch (prev curr : Feature)
    (g1 g2 : Geometry) :
  GetFID prev = GetFID curr ->
  GetGeometryRef prev = Some g1 -> GetGeometryRef curr = Some g2 ->
  GetGeometryType g1 ≠ GetGeometryType g2 ->
  modification_event prev curr
  = Raise (GeometryTypeMismatchError (GetGeometryName g1) (GetGeometryName g2))
  /\ GetGeometryName g1 ≠ GetGeometryName g2.
Proof.
  intros Hfid Hg1 Hg2 Hty. split.
  - unfold modification_event, modification_event_in,
      _validate_modification_args, geometry_of.
    rewrite bool_decide_eq_false_2 by (intros Hne; apply Hne, Hfid).
    rewrite Hg1, Hg2. cbn [mbind result_bind].
    rewrite bool_decide_eq_true_2 by exact Hty.
    reflexivity.
  - intros Heq. apply Hty, GetGeometryName_inj, Heq.
Qed.


(** A modification event is never returned: the point branch stops at the
    unbound name, every other branch at the unsupported geometry type. *)
Lemma modification_event_never_returns (prev curr : Feature) :
  is_ok (modification_event prev curr) = false.
Proof.
  unfold modification_event, modification_event_in.
  destruct (_validate_modification_args prev curr) as [[]|e]; [|reflexivity].
  cbn [mbind result_bind]. rewrite (global_bound _ "gisevents") by reflexivity.
  cbn [mbind result_bind]. rewrite (global_bound _ "datetime") by reflexivity.
  destruct (fromisoformat _) as [ts|e]; [|reflexivity].
  cbn [mbind result_bind]. unfold geometry_of.
  destruct (GetGeometryRef prev) as [g1|]; [|reflexivity].
  destruct (GetGeometryRef curr) as [g2|]; [|reflexivity].
  cbn [mbind result_bind].
  destruct (GetGeometryType g1); try reflexivity.
  rewrite (global_bound _ "geodiff") by reflexivity.
  destruct (diff_points _ _) as [d|e]; [|reflexivity].
  cbn [mbind result_bind]. rewrite (global_unbound _ "utils") by reflexivity.
  reflexivity.
Qed.

(** C2. For two point features that pass validation, [modification_event]
    gets as far as the point difference and then stops at the name [utils],
    which events.py never binds: it raises NameError where a point patch
    with the quantized delta was to be returned. *)
Theorem modification_event_point_name_error (prev curr : Feature)
    (g1 g2 : Geometry) (ts : Timestamp) (d : point_diff) :
  _validate_modification_args prev curr = Ok tt ->
  fromisoformat (GetFieldAsISO8601DateTime osm_timestamp curr) = Ok ts ->
  GetGeometryRef prev = Some g1 -> GetGeometryRef curr = Some g2 ->
  GetGeometryType g1 = wkbPoint ->
  diff_points (ExportToWkt g1) (ExportToWkt g2) = Ok d ->
  modification_event prev curr = Raise (NameError "utils").
Proof.
  intros Hval Hts Hg1 Hg2 Hpt Hd.
  unfold modification_event, modification_event_in.
  rewrite Hval. cbn [mbind result_bind].
  rewrite (global_bound _ "gisevents") by reflexivity. cbn [mbind result_bind].
  rewrite (global_bound _ "datetime") by reflexivity. rewrite Hts.
  cbn [mbind result_bind]. unfold geometry_of. rewrite Hg1, Hg2.
  cbn [mbind result_bind]. rewrite Hpt.
  rewrite (global_bound _ "geodiff") by reflexivity. rewrite Hd.
  cbn [mbind result_bind]. rewrite (global_unbound _ "utils") by reflexivity.
  reflexivity.
Qed.

(** Whatever names the module binds, two features whose property maps
    differ give no event: when every statement before the comparison has
    gone through, the comparison raises. *)
Lemma modification_event_in_props_differ (ns : list string)
    (prev curr : Feature) (prev_props curr_props : Tags) :
  json_loads (GetFieldAsString all_tags prev) = Ok prev_props ->
  json_loads (GetFieldAsString all_tags curr) = Ok curr_props ->
  dict_ne prev_props curr_props = true ->
  exists e, modification_event_in ns prev curr = Raise e.
Proof.
  intros Hprev Hcurr Hne. unfold modification_event_in.
  destruct (_validate_modification_args prev curr) as [[]|e]; [|eauto].
  cbn [mbind result_bind].
  destruct (global ns "gisevents" _) as [[]|e]; [|eauto].
  cbn [mbind result_bind].
  destruct (global ns "datetime" _) as [ts|e]; [|eauto].
  cbn [mbind result_bind].
  destruct (geometry_of prev) as [g1|e]; [|eauto].
  destruct (geometry_of curr) as [g2|e]; [|eauto].
  cbn [mbind result_bind].
  match goal with
  | |- exists e, ?patch ≫= _ = _ => destruct patch as [p|e]; [|eauto]
  end.
  cbn [mbind result_bind].
  unfold global.
  destruct (existsb (String.eqb "json") ns); [|eauto].
  rewrite Hprev, Hcurr. cbn [mbind result_bind]. rewrite Hne. eauto.
Qed.

(** The statements of [modification_event] before the geometry match: a
    validation error and a timestamp error are the call's error. *)
Lemma modification_event_validation_error (prev curr : Feature) (e : exn) :
  _validate_modification_args prev curr = Raise e ->
  modification_event prev curr = Raise e.
Proof.
  intros Hval. unfold modification_event, modification_event_in.
  rewrite Hval. reflexivity.
Qed.

Lemma modification_event_timestamp_error (prev curr : Feature) (e : exn) :
  _validate_modification_args prev curr = Ok tt ->
  fromisoformat (GetFieldAsISO8601DateTime osm_timestamp curr) = Raise e ->
  modification_event prev curr = Raise e.
Proof.
  intros Hval Hts. unfold modification_event, modification_event_in.
  rewrite Hval. cbn [mbind result_bind].
  rewrite (global_bound _ "gisevents") by reflexivity. cbn [mbind result_bind].
  rewrite (global_bound _ "datetime") by reflexivity. rewrite Hts.
  reflexivity.
Qed.

(** The default case of the geometry match. *)
Lemma modification_event_unsupported_geometry (prev curr : Feature)
    (g : Geometry) (ts : Timestamp) :
  _validate_modification_args prev curr = Ok tt ->
  fromisoformat (GetFieldAsISO8601DateTime osm_timestamp curr) = Ok ts ->
  GetGeometryRef prev = Some g ->
  GetGeometryType g ≠ wkbPoint ->
  modification_event prev curr
  = Raise (TypeError ("Unsupported geometry type: "
                      +:+ pretty (wkb_code (GetGeometryType g)))).
Proof.
  intros Hval Hts Hg Hkind.
  destruct (validate_modification_ok prev curr Hval)
    as (_ & g1 & g2 & Hg1 & Hg2 & _ & _).
  assert (g1 = g) as -> by congruence.
  unfold modification_event, modification_event_in.
  rewrite Hval. cbn [mbind result_bind].
  rewrite (global_bound _ "gisevents") by reflexivity. cbn [mbind result_bind].
  rewrite (global_bound _ "datetime") by reflexivity. rewrite Hts.
  cbn [mbind result_bind]. unfold geometry_of. rewrite Hg1, Hg2.
  cbn [mbind result_bind].
  destruct (GetGeometryType g); [by destruct Hkind | reflexivity..].
Qed.

(** C7. Building a deletion event fails with NotImplementedError for every
    feature.  Building a modification event for two features whose property
    maps differ never returns an event: the call raises.  A validation
    error or a timestamp error is raised first, and when both steps go
    through a geometry other than a Point raises the TypeError of the
    default case of the geometry match, before the property maps are
    compared. *)
Theorem unimplemented_events_raise :
  (forall feature : Feature,
      deletion_event feature = Raise NotImplementedError) /\
  (forall (prev curr : Feature) (prev_props curr_props : Tags),
      json_loads (GetFieldAsString all_tags prev) = Ok prev_props ->
      json_loads (GetFieldAsString all_tags curr) = Ok curr_props ->
      dict_ne prev_props curr_props = true ->
      (exists e, modification_event prev curr = Raise e) /\
      (forall e, _validate_modification_args prev curr = Raise e ->
                 modification_event prev curr = Raise e) /\
      (forall e,
          _validate_modification_args prev curr = Ok tt ->
          fromisoformat (GetFieldAsISO8601DateTime osm_timestamp curr)
          = Raise e ->
          modification_event prev curr = Raise e) /\
      (forall (g : Geometry) (ts : Timestamp),
          _validate_modification_args prev curr = Ok tt ->
          fromisoformat (GetFieldAsISO8601DateTime osm_timestamp curr)
          = Ok ts ->
          GetGeometryRef prev = Some g ->
          GetGeometryType g ≠ wkbPoint ->
          modification_event prev curr
          = Raise (TypeError ("Unsupported geometry type: "
                              +:+ pretty (wkb_code (GetGeometryType g)))))).
Proof.
  split; [reflexivity|].
  intros prev curr prev_props curr_props Hprev Hcurr Hne.
  split; [|split; [|split]].
  - exact (modification_event_in_props_differ events_globals prev curr
             prev_props curr_props Hprev Hcurr Hne).
  - intros e. apply modification_event_validation_error.
  - intros e. apply modification_event_timestamp_error.
  - intros g ts. apply modification_event_unsupported_geometry.
Qed.

Lemma truthy_empty : truthy "" = false.
Proof. reflexivity. Qed.

(** C10. For every feature whose all_tags field is empty or unset,
    [creation_event] does not parse the tag blob: its result is the same
    with any JSON parser.  When such a feature passes validation, its
    timestamp parses and its geometry is a Point, LineString or Polygon,
    [creation_event] returns an event whose property list has no keys and no
    values. *)
Theorem creation_event_without_tags (feature : Feature) :
  GetFieldAsString all_tags feature = "" ->
  (forall parser : string -> result Tags,
      @creation_event (with_json_loads parser H) feature
      = creation_event feature) /\
  (forall (ts : Timestamp) (g : Geometry),
      validate_osm_feature feature = Ok tt ->
      fromisoformat (GetFieldAsISO8601DateTime osm_timestamp feature) = Ok ts ->
      GetGeometryRef feature = Some g ->
      GetGeometryType g ∈ [wkbPoint; wkbLineString; wkbPolygon] ->
      exists event,
        creation_event feature = Ok event /\
        CreationEvent.properties event = {| key := []; value := [] |}).
Proof.
  intros Htags. split.
  - intros parser. unfold creation_event, _validate_creation_event_args.
    cbn [validate_osm_feature fromisoformat with_json_loads].
    destruct (validate_osm_feature feature) as [[]|e]; [|reflexivity].
    cbn [mbind result_bind].
    rewrite (global_bound _ "gisevents") by reflexivity. cbn [mbind result_bind].
    destruct (global events_globals "datetime" _) as [dt|e]; [|reflexivity].
    cbn [mbind result_bind]. rewrite Htags, truthy_empty. reflexivity.
  - intros ts g Hval Hts Hg Hkind.
    unfold creation_event, _validate_creation_event_args.
    rewrite Hval. cbn [mbind result_bind].
    rewrite (global_bound _ "gisevents") by reflexivity. cbn [mbind result_bind].
    rewrite (global_bound _ "datetime") by reflexivity. rewrite Hts.
    cbn [mbind result_bind]. rewrite Htags, truthy_empty.
    cbn [mbind result_bind]. unfold geometry_of. rewrite Hg.
    cbn [mbind result_bind].
    rewrite !elem_of_cons in Hkind.
    destruct Hkind as [-> | [-> | [-> | Hnil]]];
      [| | | by apply elem_of_nil in Hnil];
      rewrite (global_bound _ "gisevents") by reflexivity;
      eexists; split; reflexivity.
Qed.

End WithCollaborators.

(** C2, at the features of test_modification_event_point. *)
Lemma modification_event_point_name_error_witness :
  _validate_modification_args Sample.point_feature_1 Sample.point_feature_1_v2
  = Ok tt /\
  modification_event Sample.point_feature_1 Sample.point_feature_1_v2
  = Raise (NameError "utils").
Proof.
  split; [reflexivity|].
  eapply (modification_event_point_name_error
            Sample.point_feature_1 Sample.point_feature_1_v2
            {| GetGeometryType := wkbPoint; ExportToWkt := "POINT (1 1)" |}
            {| GetGeometryType := wkbPoint; ExportToWkt := "POINT (2 2)" |}
            {| seconds := 1672531200; nanos := 0 |});
    reflexivity.
Defined.

(** C3, at the features of test_validate_mismatching_version_raises. *)
Lemma modification_event_version_order_witness :
  modification_event Sample.point_feature_1 Sample.point_feature_1
  = Raise (ValueError
      ("Version number of the second feature argument must be one "
       +:+ "more than the first argument's. Versions were 1 and 1.")).
Proof.
  apply (modification_event_version_order
           Sample.point_feature_1 Sample.point_feature_1
           {| GetGeometryType := wkbPoint; ExportToWkt := "POINT (1 1)" |}
           {| GetGeometryType := wkbPoint; ExportToWkt := "POINT (1 1)" |});
    [reflexivity | reflexivity | reflexivity | reflexivity | vm_compute; lia].
Defined.

(** C4, at the features of test_validate_mismatching_geom_type_raises. *)
Lemma modification_event_kind_mismatch_witness :
  modification_event Sample.point_feature_1 Sample.linestring_feature_1_v2
  = Raise (GeometryTypeMismatchError "POINT" "LINESTRING")
  /\ "POINT" ≠ "LINESTRING".
Proof.
  apply (modification_event_kind_mismatch
           Sample.point_feature_1 Sample.linestring_feature_1_v2
           {| GetGeometryType := wkbPoint; ExportToWkt := "POINT (1 1)" |}
           {| GetGeometryType := wkbLineString;
              ExportToWkt := "LINESTRING (1 2, 3 2)" |});
    [reflexivity | reflexivity | reflexivity | simpl; discriminate].
Defined.

(** C7 as stated fails: two line strings with sequential versions and
    different tags stop at the unsupported geometry type. *)
Lemma modification_event_props_differ_counterexample :
  json_loads (GetFieldAsString all_tags Sample.linestring_feature_1) = Ok [] /\
  json_loads (GetFieldAsString all_tags Sample.linestring_feature_1_v2)
  = Ok [("testKey", "testValue")] /\
  dict_ne [] [("testKey", "testValue")] = true /\
  _validate_modification_args
    Sample.linestring_feature_1 Sample.linestring_feature_1_v2 = Ok tt /\
  modification_event Sample.linestring_feature_1 Sample.linestring_feature_1_v2
  = Raise (TypeError "Unsupported geometry type: 2") /\
  modification_event Sample.linestring_feature_1 Sample.linestring_feature_1_v2
  ≠ Raise NotImplementedError.
Proof.
  repeat split; try reflexivity. vm_compute. discriminate.
Qed.

(** C7, at the deletion of a point feature and at two line strings with
    sequential versions and different tags. *)
Lemma unimplemented_events_raise_witness :
  deletion_event Sample.point_feature_1 = Raise NotImplementedError /\
  dict_ne [] [("testKey", "testValue")] = true /\
  modification_event Sample.linestring_feature_1 Sample.linestring_feature_1_v2
  = Raise (TypeError "Unsupported geometry type: 2").
Proof.
  destruct (unimplemented_events_raise (H := Sample.collaborators))
    as [Hdel Hmod].
  split; [apply Hdel|]. split; [reflexivity|].
  destruct (Hmod Sample.linestring_feature_1 Sample.linestring_feature_1_v2
              [] [("testKey", "testValue")] eq_refl eq_refl eq_refl)
    as (_ & _ & _ & Hgeom).
  apply (Hgeom {| GetGeometryType := wkbLineString;
                  ExportToWkt := "LINESTRING (1 2, 2 2)" |}
               {| seconds := 1672531200; nanos := 0 |});
    [reflexivity | reflexivity | reflexivity | discriminate].
Defined.

(** C10 as stated fails: a multipolygon without tags is turned down for its
    geometry type. *)
Lemma creation_event_without_tags_counterexample :
  GetFieldAsString all_tags Sample.multipolygon_feature_untagged = "" /\
  creation_event Sample.multipolygon_feature_untagged
  = Raise (ValueError "Unsupported geometry type: 6").
Proof. split; reflexivity. Qed.

(** C10, at an untagged point feature, which is converted, and at an
    untagged multipolygon, whose result does not depend on the parser
    either; the parser of the sample rejects the empty blob. *)
Lemma creation_event_without_tags_witness :
  json_loads "" = Raise (JSONDecodeError "Expecting value") /\
  (exists event,
      creation_event Sample.point_feature_untagged = Ok event /\
      CreationEvent.properties event = {| key := []; value := [] |}) /\
  (forall parser : string -> result Tags,
      @creation_event (with_json_loads parser Sample.collaborators)
        Sample.multipolygon_feature_untagged
      = creation_event Sample.multipolygon_feature_untagged).
Proof.
  split; [reflexivity|]. split.
  - destruct (creation_event_without_tags Sample.point_feature_untagged
                eq_refl) as [_ Hok].
    apply (Hok {| seconds := 1672531200; nanos := 0 |}
               {| GetGeometryType := wkbPoint; ExportToWkt := "POINT (1 2)" |});
      try reflexivity.
    constructor.
  - apply (creation_event_without_tags Sample.multipolygon_feature_untagged
             eq_refl).
Defined.

End EventsFacts.

(** ** event_store.py *)

Module EventStoreFacts.
Import EventStore.

Section WithCollaborators.
Context `{Collaborators}.

Lemma configure_initialized (config : option (gmap string string))
    (st : module_state) :
  _initialized (configure config st) = _initialized st.
Proof.
  unfold configure.
  destruct config as [c|], (_configured st); simpl;
    try destruct (negb _); reflexivity.
Qed.

Lemma init_initialized (config : option (gmap string string))
    (st : module_state) :
  _initialized (fst (init config st)) = _initialized st.
Proof.
  unfold init. destruct (_initialized st) eqn:Hinit; [exact Hinit|].
  set (st1 := match config with
              | Some c => if _configured st then update_config c st
                          else configure config st
              | None => configure config st
              end).
  assert (Hst1 : _initialized st1 = false).
  { subst st1. destruct config as [c|]; [destruct (_configured st)|];
      rewrite ?configure_initialized; simpl; exact Hinit. }
  destruct (_config st1 !! "event_store_path") as [path|]; [|exact Hst1].
  destruct (open_wb path); simpl; exact Hst1.
Qed.

Lemma write_events_uninitialized (events : list Event) (st : module_state) :
  _initialized st = false ->
  write_events events st
  = (st, Raise (RuntimeError "Event store not initialized")).
Proof. unfold write_events. intros ->. reflexivity. Qed.

Lemma after_uninitialized (st : module_state) (c : call) :
  _initialized st = false -> _initialized (after st c) = false.
Proof.
  intros Hinit. destruct c as [config|config|events|]; cbn [after].
  - rewrite configure_initialized. exact Hinit.
  - rewrite init_initialized. exact Hinit.
  - rewrite write_events_uninitialized by exact Hinit. exact Hinit.
  - unfold teardown. rewrite Hinit. exact Hinit.
Qed.

Lemma after_all_uninitialized (calls : list call) (st : module_state) :
  _initialized st = false -> _initialized (after_all calls st) = false.
Proof.
  revert st. unfold after_all.
  induction calls as [|c calls IH]; intros st Hinit; simpl; [exact Hinit|].
  apply IH, after_uninitialized, Hinit.
Qed.

(** C8. After any sequence of calls of the module's functions, with any
    configs, from the state the import leaves, the store is not initialized:
    [write_events] raises RuntimeError('Event store not initialized') and
    leaves every file as it was. *)
Theorem write_events_never_initialized (calls : list call)
    (events : list Event) (files : gmap string (list Byte.byte)) :
  let st := after_all calls (on_import files) in
  _initialized st = false /\
  write_events events st
  = (st, Raise (RuntimeError "Event store not initialized")) /\
  disk (fst (write_events events st)) = disk st.
Proof.
  intros st.
  assert (Hinit : _initialized st = false)
    by (apply after_all_uninitialized; reflexivity).
  split; [exact Hinit|].
  rewrite write_events_uninitialized by exact Hinit.
  split; reflexivity.
Qed.

End WithCollaborators.
End EventStoreFacts.

(** ** events.py: the event store from a snapshot *)

Module SnapshotFacts.
Import Snapshot.

Section WithCollaborators.
Context `{Collaborators}.

Lemma steps_S (n : nat) (ds : gmap string Layer)
    (store : EventStore.module_state) :
  steps (S n) ds store = step ds store (steps n ds store).
Proof. reflexivity. Qed.

(** Once control is in the [while] with a feature that converts, it stays
    there, one more event in the list after each step. *)
Lemma steps_while (ds : gmap string Layer) (store : EventStore.module_state)
    (feature : Feature) (layer : Layer) (event : CreationEvent.t) (n : nat) :
  ds !! "points" = Some (feature :: layer) ->
  creation_event feature = Ok event ->
  steps (S n) ds store
  = While ["lines"; "linearrings"] (Some feature) (replicate n event).
Proof.
  intros Hds Hev. induction n as [|n IH].
  - change (steps 1 ds store) with (step ds store start).
    unfold start, step, layer_by_name. rewrite Hds. reflexivity.
  - rewrite steps_S, IH. cbn [step]. rewrite Hev.
    f_equal. symmetry. apply replicate_S_end.
Qed.

Lemma steps_return (ds : gmap string Layer) (store store' : EventStore.module_state)
    (r : result unit) (n k : nat) :
  steps n ds store = Return r store' ->
  steps (k + n) ds store = Return r store'.
Proof.
  intros Hn. induction k as [|k IH]; [exact Hn|].
  change (S k + n)%nat with (S (k + n)). rewrite steps_S, IH. reflexivity.
Qed.

(** C9. When the points layer, the first one scanned, has a first feature,
    [initialize_eventstore_from_snapshot] never gets past it.  If
    [creation_event] converts the feature, the loop converts it again and
    again and the call is never over; if [creation_event] raises on it, the
    call is over with that error. *)
Theorem initialize_eventstore_from_snapshot_first_feature
    (ds : gmap string Layer) (store : EventStore.module_state)
    (feature : Feature) (layer : Layer) :
  ds !! "points" = Some (feature :: layer) ->
  (forall event, creation_event feature = Ok event ->
     (forall fuel, initialize_eventstore_from_snapshot fuel ds store = None) /\
     (forall n, steps (S n) ds store
                = While ["lines"; "linearrings"] (Some feature)
                    (replicate n event))) /\
  (forall e, creation_event feature = Raise e ->
     forall fuel, (2 <= fuel)%nat ->
       initialize_eventstore_from_snapshot fuel ds store
       = Some (Raise e, store)).
Proof.
  intros Hds. split.
  - intros event Hev. split.
    + intros [|fuel]; unfold initialize_eventstore_from_snapshot;
        [reflexivity|].
      rewrite (steps_while ds store feature layer event fuel Hds Hev).
      reflexivity.
    + intros n. apply (steps_while ds store feature layer event n Hds Hev).
  - intros e He fuel Hfuel.
    unfold initialize_eventstore_from_snapshot.
    replace fuel with ((fuel - 2) + 2)%nat by lia.
    rewrite (steps_return ds store store (Raise e) 2); [reflexivity|].
    change (steps 2 ds store) with (step ds store (step ds store start)).
    unfold start. cbn [step]. unfold layer_by_name. rewrite Hds.
    cbn [step GetNextFeature head]. rewrite He. reflexivity.
Qed.

End WithCollaborators.

(** C9 as stated fails: the first feature of the points layer has no
    version, validation turns it down and the call is over after two
    steps. *)
Lemma initialize_eventstore_from_snapshot_counterexample :
  Sample.unversioned_snapshot !! "points"
  = Some [Sample.point_feature_without_version] /\
  initialize_eventstore_from_snapshot 2 Sample.unversioned_snapshot
    (EventStore.on_import ∅)
  = Some (Raise (ValueError "Feature has no osm_version"),
          EventStore.on_import ∅).
Proof. split; vm_compute; reflexivity. Qed.

(** C9, at a snapshot whose points layer holds one untagged point. *)
Lemma initialize_eventstore_from_snapshot_first_feature_witness :
  Sample.curr_snapshot !! "points" = Some [Sample.point_feature_untagged] /\
  initialize_eventstore_from_snapshot 1000 Sample.curr_snapshot
    (EventStore.on_import ∅) = None.
Proof.
  assert (Hds : Sample.curr_snapshot !! "points"
                = Some [Sample.point_feature_untagged])
    by (vm_compute; reflexivity).
  split; [exact Hds|].
  destruct (initialize_eventstore_from_snapshot_first_feature
              Sample.curr_snapshot (EventStore.on_import ∅)
              Sample.point_feature_untagged [] Hds) as [Hloop _].
  destruct (creation_event Sample.point_feature_untagged) as [event|e] eqn:Hev;
    [|discriminate Hev].
  apply (Hloop event eq_refl).
Defined.

End SnapshotFacts.

(** ** ogr.py: find_changes *)

Module OgrFacts.
Import Ogr.

Section WithCollaborators.
Context `{Collaborators}.
Variables prev curr : gmap string Layer.

Lemma process_blacklisted (r : run) (change_info : ChangeInfo) :
  element_identifier change_info ∈ _blacklist r ->
  process prev curr r change_info = Ok r.
Proof.
  intros Hin. unfold process.
  rewrite bool_decide_eq_true_2 by exact Hin. reflexivity.
Qed.

(** A record that is not blacklisted makes its lookups; then it is
    blacklisted, or its event is appended, or the builder's error ends the
    run. *)
Lemma process_fresh (r : run) (change_info : ChangeInfo) :
  element_identifier change_info ∉ _blacklist r ->
  process prev curr r change_info
  = match event_for prev curr change_info with
    | Ok None =>
        Ok (blacklisted (element_identifier change_info) (traced change_info r))
    | Ok (Some event) => Ok (appended event (traced change_info r))
    | Raise e => Raise e
    end.
Proof.
  intros Hnin. unfold process, event_for, traced.
  rewrite bool_decide_eq_false_2 by exact Hnin.
  destruct (change_type change_info).
  - destruct (_find_feature curr _) as [[feature|]|e]; try reflexivity.
    cbn [mbind result_bind]. destruct (creation_event feature); reflexivity.
  - destruct (_find_feature prev _) as [[feat1|]|e]; try reflexivity;
      cbn [mbind result_bind];
      destruct (_find_feature curr _) as [[feat2|]|e']; try reflexivity.
    cbn [mbind result_bind].
    destruct (modification_event feat1 feat2); reflexivity.
  - destruct (_find_feature prev _) as [[feature|]|e]; try reflexivity.
Qed.

(** What one step may change: the blacklist and the result only grow at
    the end, and the lookups added are lookups of the record's own
    identifier. *)
Lemma process_grows (r r' : run) (change_info : ChangeInfo) :
  process prev curr r change_info = Ok r' ->
  _blacklist r `prefix_of` _blacklist r' /\
  result_events r `prefix_of` result_events r' /\
  exists ls, lookups r' = lookups r ++ ls /\
             Forall (fun l => snd l = element_identifier change_info) ls /\
             (element_identifier change_info ∈ _blacklist r -> ls = []).
Proof.
  destruct (decide (element_identifier change_info ∈ _blacklist r)) as [Hin|Hnin].
  - rewrite process_blacklisted by exact Hin. intros [= <-].
    repeat split; [reflexivity | reflexivity |].
    exists []. rewrite app_nil_r. repeat split; auto.
  - rewrite process_fresh by exact Hnin.
    assert (Htr : exists ls,
               lookups (traced change_info r) = lookups r ++ ls /\
               Forall (fun l => snd l = element_identifier change_info) ls).
    { unfold traced. destruct (change_type change_info); simpl.
      - eexists; split; [reflexivity|]. repeat constructor.
      - rewrite <- app_assoc. eexists; split; [reflexivity|].
        repeat constructor.
      - eexists; split; [reflexivity|]. repeat constructor. }
    assert (Hbl : _blacklist (traced change_info r) = _blacklist r)
      by (unfold traced; destruct (change_type change_info); reflexivity).
    assert (Hev : result_events (traced change_info r) = result_events r)
      by (unfold traced; destruct (change_type change_info); reflexivity).
    destruct Htr as (ls & Hls & Hall).
    destruct (event_for prev curr change_info) as [[event|]|e];
      [| |discriminate]; intros [= <-]; simpl; rewrite Hbl, Hev.
    + repeat split; [reflexivity | by apply prefix_app_r |].
      exists ls. repeat split; [assumption | assumption | contradiction].
    + repeat split; [by apply prefix_app_r | reflexivity |].
      exists ls. repeat split; [assumption | assumption | contradiction].
Qed.

Lemma process_all_cons (change_info : ChangeInfo) (rest : list ChangeInfo)
    (r : run) :
  process_all prev curr (change_info :: rest) r
  = process prev curr r change_info ≫= process_all prev curr rest.
Proof. reflexivity. Qed.

(** From the moment an identifier is on the blacklist, the rest of the run
    keeps it there and looks it up no more. *)
Lemma blacklisted_for_good (identifier : ElementIdentifier)
    (rest : list ChangeInfo) (r r' : run) :
  identifier ∈ _blacklist r ->
  process_all prev curr rest r = Ok r' ->
  identifier ∈ _blacklist r' /\
  exists ls, lookups r' = lookups r ++ ls /\
             Forall (fun l => snd l ≠ identifier) ls.
Proof.
  revert r. induction rest as [|change_info rest IH]; intros r Hin.
  - intros [= <-]. split; [exact Hin|].
    exists []. rewrite app_nil_r. split; [reflexivity | constructor].
  - rewrite process_all_cons.
    destruct (process prev curr r change_info) as [r1|e] eqn:Hstep;
      [|discriminate].
    cbn [mbind result_bind]. intros Hrest.
    destruct (process_grows _ _ _ Hstep) as (Hbl & _ & ls1 & Hls1 & Hall1 & Hskip).
    assert (Hin1 : identifier ∈ _blacklist r1).
    { destruct Hbl as [k ->]. apply elem_of_app. left. exact Hin. }
    destruct (IH r1 Hin1 Hrest) as (Hin' & ls2 & Hls2 & Hall2).
    split; [exact Hin'|].
    exists (ls1 ++ ls2). split; [rewrite Hls2, Hls1, app_assoc; reflexivity|].
    apply Forall_app. split; [|exact Hall2].
    destruct (decide (element_identifier change_info = identifier)) as [Heq|Hne].
    + rewrite Hskip by (rewrite Heq; exact Hin). constructor.
    + eapply Forall_impl; [exact Hall1|]. intros l Hl. simpl in Hl.
      rewrite Hl. exact Hne.
Qed.

(** The records of a blacklisted identifier might as well not be in the
    change log. *)
Lemma blacklisted_records_dropped (identifier : ElementIdentifier)
    (rest : list ChangeInfo) (r : run) :
  identifier ∈ _blacklist r ->
  process_all prev curr rest r
  = process_all prev curr
      (filter (fun c => element_identifier c ≠ identifier) rest) r.
Proof.
  revert r. induction rest as [|change_info rest IH]; intros r Hin;
    [reflexivity|].
  destruct (decide (element_identifier change_info = identifier)) as [Heq|Hne].
  - rewrite filter_cons_False by (intros Hne; apply Hne, Heq).
    rewrite process_all_cons, process_blacklisted by (rewrite Heq; exact Hin).
    apply IH, Hin.
  - rewrite filter_cons_True by exact Hne.
    rewrite !process_all_cons.
    destruct (process prev curr r change_info) as [r1|e] eqn:Hstep;
      [|reflexivity].
    cbn [mbind result_bind]. apply IH.
    destruct (process_grows _ _ _ Hstep) as ([k ->] & _).
    apply elem_of_app. left. exact Hin.
Qed.

(** C5. In a run of [find_changes]: a record that is not blacklisted and
    for which a required lookup returns not-found has its identifier
    appended to the blacklist and adds no event, and the run goes on with
    the next record; a record
    whose identifier is blacklisted leaves the run as it is, without a
    lookup and without an event; and a blacklisted identifier stays
    blacklisted and is not looked up again in the rest of the run, whose
    outcome is the one it has without the records of that identifier. *)
Theorem blacklist_stability (r : run) (change_info : ChangeInfo)
    (rest : list ChangeInfo) :
  let identifier := element_identifier change_info in
  (identifier ∉ _blacklist r -> event_for prev curr change_info = Ok None ->
     exists r',
       process prev curr r change_info = Ok r' /\
       _blacklist r' = _blacklist r ++ [identifier] /\
       result_events r' = result_events r /\
       process_all prev curr (change_info :: rest) r
       = process_all prev curr rest r') /\
  (identifier ∈ _blacklist r ->
     process prev curr r change_info = Ok r /\
     process_all prev curr (change_info :: rest) r
     = process_all prev curr
         (filter (fun c => element_identifier c ≠ identifier) rest) r /\
     forall r', process_all prev curr rest r = Ok r' ->
       identifier ∈ _blacklist r' /\
       exists ls, lookups r' = lookups r ++ ls /\
                  Forall (fun l => snd l ≠ identifier) ls).
Proof.
  intros identifier. split.
  - intros Hnin Hnone.
    exists (blacklisted identifier (traced change_info r)).
    assert (Hstep : process prev curr r change_info
                    = Ok (blacklisted identifier (traced change_info r)))
      by (rewrite process_fresh by exact Hnin; rewrite Hnone; reflexivity).
    split; [exact Hstep|].
    repeat split.
    + unfold traced. destruct (change_type change_info); reflexivity.
    + unfold traced. destruct (change_type change_info); reflexivity.
    + rewrite process_all_cons, Hstep. reflexivity.
  - intros Hin. split; [apply process_blacklisted, Hin|]. split.
    + rewrite process_all_cons, process_blacklisted by exact Hin.
      apply blacklisted_records_dropped, Hin.
    + intros r' Hrest. eapply blacklisted_for_good; eassumption.
Qed.

Lemma surviving_sublist (osc_info : list ChangeInfo)
    (blacklist : list ElementIdentifier) :
  surviving prev curr osc_info blacklist `sublist_of` osc_info.
Proof.
  revert blacklist.
  induction osc_info as [|change_info rest IH]; intros blacklist; simpl.
  - constructor.
  - case_bool_decide; [apply sublist_cons, IH|].
    destruct (event_for prev curr change_info) as [[event|]|e];
      [apply sublist_skip, IH | apply sublist_cons, IH | apply sublist_skip, IH].
Qed.

(** A run that completes has appended the events of the surviving records,
    one each, in their order. *)
Lemma process_all_events (osc_info : list ChangeInfo) (r r' : run) :
  process_all prev curr osc_info r = Ok r' ->
  exists events,
    result_events r' = result_events r ++ events /\
    Forall2 (fun change_info event =>
               event_for prev curr change_info = Ok (Some event))
      (surviving prev curr osc_info (_blacklist r)) events.
Proof.
  revert r. induction osc_info as [|change_info rest IH]; intros r.
  - intros [= <-]. exists []. rewrite app_nil_r. split; [reflexivity|].
    constructor.
  - rewrite process_all_cons. cbn [surviving].
    case_bool_decide as Hin.
    + rewrite process_blacklisted by exact Hin. apply IH.
    + rewrite process_fresh by exact Hin.
      assert (Hbl : _blacklist (traced change_info r) = _blacklist r)
        by (unfold traced; destruct (change_type change_info); reflexivity).
      assert (Hev : result_events (traced change_info r) = result_events r)
        by (unfold traced; destruct (change_type change_info); reflexivity).
      destruct (event_for prev curr change_info) as [[event|]|e] eqn:Hfor;
        cbn [mbind result_bind]; [| |discriminate]; intros Hrest;
        destruct (IH _ Hrest) as (events & Hevents & Hall);
        simpl in Hevents, Hall; rewrite ?Hbl, ?Hev in *.
      * exists (event :: events). split.
        -- rewrite Hevents, <- app_assoc. reflexivity.
        -- constructor; assumption.
      * exists events. split; assumption.
Qed.

(** A run completes when the event of every surviving record builds. *)
Lemma process_all_completes (osc_info : list ChangeInfo) (r : run) :
  Forall (fun change_info => is_ok (event_for prev curr change_info) = true)
    (surviving prev curr osc_info (_blacklist r)) ->
  exists r', process_all prev curr osc_info r = Ok r'.
Proof.
  revert r. induction osc_info as [|change_info rest IH]; intros r.
  - intros _. exists r. reflexivity.
  - rewrite process_all_cons. cbn [surviving].
    case_bool_decide as Hin.
    + rewrite process_blacklisted by exact Hin. apply IH.
    + rewrite process_fresh by exact Hin.
      assert (Hbl : _blacklist (traced change_info r) = _blacklist r)
        by (unfold traced; destruct (change_type change_info); reflexivity).
      destruct (event_for prev curr change_info) as [[event|]|e] eqn:Hfor;
        cbn [mbind result_bind]; intros Hall.
      * apply IH. simpl. rewrite Hbl. inversion Hall; assumption.
      * apply IH. simpl. rewrite Hbl. exact Hall.
      * inversion Hall as [|? ? Hok _]. rewrite Hfor in Hok. discriminate Hok.
Qed.

(** C6. [find_changes] goes through the change records in input order.  The
    surviving records, those neither blacklisted at their turn nor missing a
    feature, are a subsequence of the input; a run that returns has one
    event for each of them, in that order, and nothing else; and the run
    returns when the event of each surviving record builds. *)
Theorem find_changes_order (osc_info : list ChangeInfo)
    (blacklist : list ElementIdentifier) :
  let kept := surviving prev curr osc_info blacklist in
  kept `sublist_of` osc_info /\
  (forall r, find_changes prev curr osc_info blacklist = Ok r ->
     Forall2 (fun change_info event =>
                event_for prev curr change_info = Ok (Some event))
       kept (result_events r)) /\
  (Forall (fun change_info => is_ok (event_for prev curr change_info) = true)
     kept ->
   exists r, find_changes prev curr osc_info blacklist = Ok r).
Proof.
  intros kept. split; [apply surviving_sublist|]. split.
  - intros r Hrun. unfold find_changes in Hrun.
    destruct (process_all_events _ _ _ Hrun) as (events & Hevents & Hall).
    simpl in Hevents. rewrite Hevents. exact Hall.
  - intros Hall. unfold find_changes. apply process_all_completes. exact Hall.
Qed.

End WithCollaborators.

(** C5, at the change log of the sample: node 7 is in neither snapshot, so
    its creation record blacklists it, and its modification record, once it
    is blacklisted, changes nothing. *)
Lemma blacklist_stability_witness :
  let node_7 := element_identifier Sample.create_node_7 in
  let r0 := {| _blacklist := []; result_events := []; lookups := [] |} in
  let r1 := {| _blacklist := [node_7]; result_events := [];
               lookups := [(curr_ds, node_7)] |} in
  (exists r',
     process Sample.prev_snapshot Sample.curr_snapshot r0 Sample.create_node_7
     = Ok r' /\
     _blacklist r' = [node_7] /\ result_events r' = []) /\
  process Sample.prev_snapshot Sample.curr_snapshot r1 Sample.modify_node_7
  = Ok r1.
Proof.
  intros node_7 r0 r1. split.
  - destruct (blacklist_stability Sample.prev_snapshot Sample.curr_snapshot
                r0 Sample.create_node_7 []) as [Hmiss _].
    destruct Hmiss as (r' & Hstep & Hbl & Hev & _).
    + apply not_elem_of_nil.
    + vm_compute. reflexivity.
    + exists r'. repeat split; assumption.
  - destruct (blacklist_stability Sample.prev_snapshot Sample.curr_snapshot
                r1 Sample.modify_node_7 []) as [_ Hskip].
    destruct Hskip as (Hstep & _).
    + constructor.
    + exact Hstep.
Defined.

(** C6, at the change log of the sample: of the four records the first and
    the third survive, and the run returns their two creation events in
    that order. *)
Lemma find_changes_order_witness :
  exists r,
    find_changes Sample.prev_snapshot Sample.curr_snapshot Sample.osc_info []
    = Ok r /\
    Forall2 (fun change_info event =>
               event_for Sample.prev_snapshot Sample.curr_snapshot change_info
               = Ok (Some event))
      [Sample.create_node_5; Sample.create_way_1] (result_events r).
Proof.
  destruct (find_changes_order Sample.prev_snapshot Sample.curr_snapshot
              Sample.osc_info []) as (_ & Hres & Htot).
  destruct Htot as [r Hr].
  - vm_compute. repeat constructor.
  - exists r. split; [exact Hr|]. exact (Hres r Hr).
Defined.

End OgrFacts.

(** ** osc.py: the change log parser *)

Module OscFacts.
Import Ogr Osc.

Section Parser.
Variable upper : string -> string.
Variable int : string -> result Z.

Lemma element_info_reads (change_type : ChangeType) (element_tag : Element)
    (info : ChangeInfo) :
  element_info upper int change_type element_tag = Ok info <->
  element_reads upper int change_type element_tag info.
Proof.
  unfold element_info, element_reads. split.
  - destruct (attrib element_tag !! "id") as [text|]; [|discriminate].
    cbn [mbind result_bind].
    destruct (int text) as [entity_id|e] eqn:Hint; [|discriminate].
    cbn [mbind result_bind].
    destruct (ElementType_getitem _) as [etype|e]; [|discriminate].
    cbn [mbind result_bind]. intros [= <-]. exists text. simpl. auto.
  - intros (text & -> & Hint & -> & <-). cbn [mbind result_bind].
    rewrite Hint. cbn [mbind result_bind].
    destruct info as [ct [n t]]. reflexivity.
Qed.

Lemma group_loop_reads (change_type : ChangeType)
    (element_tags : list Element) (acc infos : list ChangeInfo) :
  group_loop upper int change_type element_tags acc = Ok infos <->
  exists read,
    Forall2 (element_reads upper int change_type) element_tags read /\
    infos = acc ++ read.
Proof.
  revert acc. induction element_tags as [|e rest IH]; intros acc; simpl.
  - split.
    + intros [= <-]. exists []. rewrite app_nil_r. split; [constructor | done].
    + intros (read & Hall & ->). inversion Hall. by rewrite app_nil_r.
  - split.
    + destruct (element_info upper int change_type e) as [info|err] eqn:He;
        [|discriminate].
      cbn [mbind result_bind]. intros Hrest.
      apply IH in Hrest as (read & Hall & ->).
      exists (info :: read). split.
      * constructor; [by apply element_info_reads | exact Hall].
      * by rewrite <- app_assoc.
    + intros (read & Hall & ->).
      inversion Hall as [|? info ? read' Hread Hall']; subst.
      apply element_info_reads in Hread. rewrite Hread.
      cbn [mbind result_bind]. apply IH. exists read'.
      split; [exact Hall' | by rewrite <- app_assoc].
Qed.

Lemma group_reads_iff (change_tag : Element) (infos : list ChangeInfo) :
  _get_change_info_for_group upper int change_tag = Ok infos <->
  group_reads upper int change_tag infos.
Proof.
  unfold _get_change_info_for_group, group_reads. split.
  - destruct (ChangeType_getitem _) as [change_type|e]; [|discriminate].
    cbn [mbind result_bind]. intros Hloop.
    apply group_loop_reads in Hloop as (read & Hall & ->).
    exists change_type. split; [reflexivity | exact Hall].
  - intros (change_type & -> & Hall). cbn [mbind result_bind].
    apply group_loop_reads. exists infos. split; [exact Hall | reflexivity].
Qed.

Lemma root_loop_reads (change_tags : list Element)
    (acc infos : list ChangeInfo) :
  root_loop upper int change_tags acc = Ok infos <->
  exists parts,
    Forall2 (group_reads upper int) change_tags parts /\
    infos = acc ++ concat parts.
Proof.
  revert acc. induction change_tags as [|g rest IH]; intros acc; simpl.
  - split.
    + intros [= <-]. exists []. simpl. rewrite app_nil_r.
      split; [constructor | done].
    + intros (parts & Hall & ->). inversion Hall. simpl.
      by rewrite app_nil_r.
  - split.
    + destruct (_get_change_info_for_group upper int g) as [info|err] eqn:Hg;
        [|discriminate].
      cbn [mbind result_bind]. intros Hrest.
      apply IH in Hrest as (parts & Hall & ->).
      exists (info :: parts). split.
      * constructor; [by apply group_reads_iff | exact Hall].
      * simpl. by rewrite <- app_assoc.
    + intros (parts & Hall & ->).
      inversion Hall as [|? info ? parts' Hread Hall']; subst.
      apply group_reads_iff in Hread. rewrite Hread.
      cbn [mbind result_bind]. apply IH. exists parts'.
      split; [exact Hall' | simpl; by rewrite <- app_assoc].
Qed.

(** X1. [get_change_info] returns a change set exactly when every group of
    the root and every element of every group is well formed (a group tag
    that names a change kind, an element tag that names an entity kind, an
    id attribute that [int] reads), and the change set then has one record
    for each element, groups in document order and elements in document
    order within each group. *)
Theorem get_change_info_reads (root : Element) (infos : list ChangeInfo) :
  get_change_info upper int root = Ok infos <->
  exists parts,
    Forall2 (group_reads upper int) (children root) parts /\
    infos = concat parts.
Proof.
  unfold get_change_info. rewrite root_loop_reads. reflexivity.
Qed.

Lemma root_loop_raises (before after : list Element) (change_tag : Element)
    (parts : list (list ChangeInfo)) (acc : list ChangeInfo) (e : exn) :
  Forall2 (group_reads upper int) before parts ->
  _get_change_info_for_group upper int change_tag = Raise e ->
  root_loop upper int (before ++ change_tag :: after) acc = Raise e.
Proof.
  intros Hall Hbad. revert acc.
  induction Hall as [|g part before parts Hg _ IH]; intros acc; simpl.
  - rewrite Hbad. reflexivity.
  - apply group_reads_iff in Hg. rewrite Hg. cbn [mbind result_bind].
    apply IH.
Qed.

(** X2. A group whose tag, in upper case, names no change kind is fatal,
    also when the group is empty: if the groups before it are well formed,
    [get_change_info] raises KeyError with that name and returns no record
    at all, neither those of the groups before nor those after. *)
Theorem get_change_info_unknown_group (root : Element)
    (before after : list Element) (change_tag : Element)
    (parts : list (list ChangeInfo)) :
  children root = before ++ change_tag :: after ->
  Forall2 (group_reads upper int) before parts ->
  upper (tag change_tag) ∉ ["CREATE"; "MODIFY"; "DELETE"] ->
  get_change_info upper int root = Raise (KeyError (upper (tag change_tag))).
Proof.
  intros Hroot Hall Hunknown. unfold get_change_info. rewrite Hroot.
  apply (root_loop_raises before after change_tag parts); [exact Hall|].
  unfold _get_change_info_for_group, ChangeType_getitem.
  rewrite !not_elem_of_cons in Hunknown.
  destruct Hunknown as (H1 & H2 & H3 & _).
  apply String.eqb_neq in H1, H2, H3. rewrite H1, H2, H3. reflexivity.
Qed.

(** X3. An element without an id attribute is fatal: in a group of a known
    kind whose earlier elements are well formed, and after well-formed
    groups, it makes [get_change_info] raise KeyError('id'). *)
Theorem get_change_info_missing_id (root : Element)
    (before after : list Element) (change_tag : Element)
    (parts : list (list ChangeInfo)) (change_type : ChangeType)
    (earlier later : list Element) (element_tag : Element)
    (read : list ChangeInfo) :
  children root = before ++ change_tag :: after ->
  Forall2 (group_reads upper int) before parts ->
  ChangeType_getitem (upper (tag change_tag)) = Ok change_type ->
  children change_tag = earlier ++ element_tag :: later ->
  Forall2 (element_reads upper int change_type) earlier read ->
  attrib element_tag !! "id" = None ->
  get_change_info upper int root = Raise (KeyError "id").
Proof.
  intros Hroot Hall Hkind Hgroup Hearlier Hid.
  unfold get_change_info. rewrite Hroot.
  apply (root_loop_raises before after change_tag parts); [exact Hall|].
  unfold _get_change_info_for_group. rewrite Hkind, Hgroup.
  cbn [mbind result_bind]. clear Hgroup Hroot. generalize (@nil ChangeInfo).
  induction Hearlier as [|e info earlier read He _ IH]; intros acc; simpl.
  - unfold element_info. rewrite Hid. reflexivity.
  - apply element_info_reads in He. rewrite He. cbn [mbind result_bind].
    apply IH.
Qed.

(** X4. Parsing goes group by group: the change set of a root is the one of
    its first groups followed by the one of its last groups, whenever both
    parse. *)
Theorem get_change_info_app (tag1 tag2 tag3 : string)
    (attrib1 attrib2 attrib3 : gmap string string)
    (groups1 groups2 : list Element) (infos1 infos2 : list ChangeInfo) :
  get_change_info upper int (mkElement tag1 attrib1 groups1) = Ok infos1 ->
  get_change_info upper int (mkElement tag2 attrib2 groups2) = Ok infos2 ->
  get_change_info upper int (mkElement tag3 attrib3 (groups1 ++ groups2))
  = Ok (infos1 ++ infos2).
Proof.
  rewrite !get_change_info_reads. simpl.
  intros (parts1 & Hall1 & ->) (parts2 & Hall2 & ->).
  exists (parts1 ++ parts2). split.
  - apply Forall2_app; assumption.
  - by rewrite concat_app.
Qed.

End Parser.

Lemma get_change_info_unknown_group_witness :
  get_change_info Fixtures.upper Fixtures.int Fixtures.osm_change_unknown
  = Raise (KeyError "RENAME").
Proof.
  apply (get_change_info_unknown_group Fixtures.upper Fixtures.int
           Fixtures.osm_change_unknown
           [mkElement "create" ∅ [Fixtures.element "node" "5"]] []
           (mkElement "rename" ∅ [])
           [[ {| change_type := CREATE;
                 element_identifier := {| id := 5; etype := NODE |} |} ]]).
  - reflexivity.
  - repeat constructor. exists CREATE. split; [reflexivity|].
    repeat constructor. exists "5". repeat split; vm_compute; reflexivity.
  - change (Fixtures.upper (tag (mkElement "rename" ∅ []))) with "RENAME".
    rewrite !not_elem_of_cons. repeat split; try discriminate.
    apply not_elem_of_nil.
Defined.

Example get_change_info_osm_change :
  get_change_info Fixtures.upper Fixtures.int Fixtures.osm_change
  = Ok [ {| change_type := CREATE;
            element_identifier := {| id := 5; etype := NODE |} |};
         {| change_type := CREATE;
            element_identifier := {| id := 1; etype := WAY |} |};
         {| change_type := DELETE;
            element_identifier := {| id := 9; etype := RELATION |} |} ].
Proof. vm_compute. reflexivity. Qed.

Lemma get_change_info_missing_id_witness :
  get_change_info Fixtures.upper Fixtures.int Fixtures.osm_change_no_id
  = Raise (KeyError "id").
Proof.
  apply (get_change_info_missing_id Fixtures.upper Fixtures.int
           Fixtures.osm_change_no_id [] []
           (mkElement "modify" ∅
              [Fixtures.element "node" "5"; mkElement "way" ∅ []])
           [] MODIFY [Fixtures.element "node" "5"] []
           (mkElement "way" ∅ [])
           [ {| change_type := MODIFY;
                element_identifier := {| id := 5; etype := NODE |} |} ]).
  - reflexivity.
  - constructor.
  - vm_compute. reflexivity.
  - reflexivity.
  - repeat constructor. exists "5". repeat split; vm_compute; reflexivity.
  - vm_compute. reflexivity.
Defined.

Lemma get_change_info_app_witness :
  get_change_info Fixtures.upper Fixtures.int Fixtures.osm_change
  = Ok ([ {| change_type := CREATE;
             element_identifier := {| id := 5; etype := NODE |} |};
          {| change_type := CREATE;
             element_identifier := {| id := 1; etype := WAY |} |} ]
        ++ [ {| change_type := DELETE;
                element_identifier := {| id := 9; etype := RELATION |} |} ]).
Proof.
  apply (get_change_info_app Fixtures.upper Fixtures.int
           "osmChange" "osmChange" "osmChange" ∅ ∅ ∅
           [mkElement "create" ∅
              [Fixtures.element "node" "5"; Fixtures.element "way" "1"]]
           [mkElement "delete" ∅ [Fixtures.element "relation" "9"]]);
    vm_compute; reflexivity.
Defined.

End OscFacts.

(** ** ogr.py: _find_feature *)

Module FindFeatureFacts.
Import Ogr.

Lemma GetFeature_Some (layer : list Feature) (fid : Z) (f : Feature) :
  GetFeature layer fid = Some f -> GetFID f = fid /\ f ∈ layer.
Proof.
  unfold GetFeature. intros Hfind.
  apply fmap_Some in Hfind as ([i x] & Hfind & ->).
  apply list_find_Some in Hfind as (Hi & Hfid & _). simpl.
  split; [exact Hfid | eapply list_elem_of_lookup_2, Hi].
Qed.

Lemma GetFeature_None (layer : list Feature) (fid : Z) :
  GetFeature layer fid = None <-> Forall (fun f => GetFID f ≠ fid) layer.
Proof.
  unfold GetFeature. rewrite fmap_None. apply list_find_None.
Qed.

(** The layers [_find_feature] searches for an entity of a kind. *)
Lemma find_feature_unfold (ds : gmap string (list Feature))
    (identifier : ElementIdentifier) :
  _find_feature ds identifier
  = match etype identifier with
    | NODE =>
        layer ← layer_by_name ds "points";
        Ok (GetFeature layer (id identifier))
    | _ =>
        layer ← layer_by_name ds "lines";
        match GetFeature layer (id identifier) with
        | Some line => Ok (Some line)
        | None =>
            layer ← layer_by_name ds "linearrings";
            Ok (GetFeature layer (id identifier))
        end
    end.
Proof.
  unfold _find_feature.
  destruct (etype identifier);
    destruct (layer_by_name ds _) as [layer|e]; try reflexivity;
    cbn [mbind result_bind];
    destruct (GetFeature layer _); try reflexivity;
    destruct (layer_by_name ds _) as [layer'|e]; try reflexivity;
    cbn [mbind result_bind]; destruct (GetFeature layer' _); reflexivity.
Qed.

(** X5. A feature [_find_feature] returns has the identifier's id as its
    FID and comes from a layer searched for the identifier's kind: the
    points layer for a node, the lines or the linearrings layer for a way
    or a relation. *)
Theorem find_feature_found (ds : gmap string (list Feature))
    (identifier : ElementIdentifier) (feature : Feature) :
  _find_feature ds identifier = Ok (Some feature) ->
  GetFID feature = id identifier /\
  exists name layer,
    ds !! name = Some layer /\ feature ∈ layer /\
    name ∈ match etype identifier with
           | NODE => ["points"]
           | _ => ["lines"; "linearrings"]
           end.
Proof.
  rewrite find_feature_unfold. unfold layer_by_name.
  destruct (etype identifier).
  - destruct (ds !! "points") as [layer|] eqn:Hds; [|discriminate].
    cbn [mbind result_bind]. intros [= Hget].
    apply GetFeature_Some in Hget as [Hfid Hin]. split; [exact Hfid|].
    exists "points", layer. repeat split; [assumption.. | constructor].
  - destruct (ds !! "lines") as [lines|] eqn:Hlines; [|discriminate].
    cbn [mbind result_bind].
    destruct (GetFeature lines _) as [line|] eqn:Hline.
    + intros [= <-]. apply GetFeature_Some in Hline as [Hfid Hin].
      split; [exact Hfid|]. exists "lines", lines.
      repeat split; [assumption.. | constructor].
    + destruct (ds !! "linearrings") as [rings|] eqn:Hrings; [|discriminate].
      cbn [mbind result_bind]. intros [= Hget].
      apply GetFeature_Some in Hget as [Hfid Hin]. split; [exact Hfid|].
      exists "linearrings", rings.
      repeat split; [assumption.. | do 2 constructor].
  - destruct (ds !! "lines") as [lines|] eqn:Hlines; [|discriminate].
    cbn [mbind result_bind].
    destruct (GetFeature lines _) as [line|] eqn:Hline.
    + intros [= <-]. apply GetFeature_Some in Hline as [Hfid Hin].
      split; [exact Hfid|]. exists "lines", lines.
      repeat split; [assumption.. | constructor].
    + destruct (ds !! "linearrings") as [rings|] eqn:Hrings; [|discriminate].
      cbn [mbind result_bind]. intros [= Hget].
      apply GetFeature_Some in Hget as [Hfid Hin]. split; [exact Hfid|].
      exists "linearrings", rings.
      repeat split; [assumption.. | do 2 constructor].
Qed.

(** X6. For a way or a relation the lines layer comes first: a feature of
    the lines layer with the wanted FID is returned whatever the
    linearrings layer holds, also when the source has no linearrings layer
    at all; the linearrings layer is consulted only when the lines layer
    has no such feature. *)
Theorem find_feature_lines_first (ds : gmap string (list Feature))
    (identifier : ElementIdentifier) (lines : list Feature) :
  etype identifier ≠ NODE ->
  ds !! "lines" = Some lines ->
  (forall line, GetFeature lines (id identifier) = Some line ->
     _find_feature ds identifier = Ok (Some line)) /\
  (GetFeature lines (id identifier) = None ->
     _find_feature ds identifier
     = (rings ← layer_by_name ds "linearrings";
        Ok (GetFeature rings (id identifier)))).
Proof.
  intros Hkind Hlines. rewrite find_feature_unfold. unfold layer_by_name.
  rewrite Hlines. cbn [mbind result_bind].
  destruct (etype identifier); [contradiction| |];
    (split; [intros line ->; reflexivity | intros ->; reflexivity]).
Qed.

(** X7. [_find_feature] reports not-found exactly when the layers it
    searches exist and none of their features has the wanted FID: the
    points layer for a node, both the lines and the linearrings layer for
    a way or a relation. *)
Theorem find_feature_not_found (ds : gmap string (list Feature))
    (identifier : ElementIdentifier) :
  _find_feature ds identifier = Ok None <->
  match etype identifier with
  | NODE =>
      exists points,
        ds !! "points" = Some points /\
        Forall (fun f => GetFID f ≠ id identifier) points
  | _ =>
      exists lines rings,
        ds !! "lines" = Some lines /\ ds !! "linearrings" = Some rings /\
        Forall (fun f => GetFID f ≠ id identifier) (lines ++ rings)
  end.
Proof.
  rewrite find_feature_unfold. unfold layer_by_name.
  assert (Hways :
    (layer ← match ds !! "lines" with
             | Some layer => Ok layer
             | None => Raise (AttributeError "'NoneType' object has no attribute")
             end;
     match GetFeature layer (id identifier) with
     | Some line => Ok (Some line)
     | None =>
         layer0 ← match ds !! "linearrings" with
                  | Some layer0 => Ok layer0
                  | None => Raise (AttributeError "'NoneType' object has no attribute")
                  end;
         Ok (GetFeature layer0 (id identifier))
     end) = Ok None <->
    exists lines rings,
      ds !! "lines" = Some lines /\ ds !! "linearrings" = Some rings /\
      Forall (fun f => GetFID f ≠ id identifier) (lines ++ rings)).
  { split.
    - destruct (ds !! "lines") as [lines|]; [|discriminate].
      cbn [mbind result_bind].
      destruct (GetFeature lines _) eqn:Hline; [discriminate|].
      destruct (ds !! "linearrings") as [rings|]; [|discriminate].
      cbn [mbind result_bind]. intros [= Hring].
      exists lines, rings. repeat split.
      apply Forall_app. split; by apply GetFeature_None.
    - intros (lines & rings & -> & -> & Hall).
      apply Forall_app in Hall as [Hl Hr]. cbn [mbind result_bind].
      apply GetFeature_None in Hl, Hr. rewrite Hl. cbn [mbind result_bind].
      rewrite Hr. reflexivity. }
  destruct (etype identifier); [|exact Hways|exact Hways].
  split.
  - destruct (ds !! "points") as [points|]; [|discriminate].
    cbn [mbind result_bind]. intros [= Hget].
    exists points. split; [reflexivity | by apply GetFeature_None].
  - intros (points & -> & Hall). cbn [mbind result_bind].
    apply GetFeature_None in Hall. rewrite Hall. reflexivity.
Qed.

Lemma find_feature_found_witness :
  GetFID Fixtures.feature_9 = 9 /\
  exists name layer,
    Fixtures.overlapping_snapshot !! name = Some layer /\
    Fixtures.feature_9 ∈ layer /\ name ∈ ["lines"; "linearrings"].
Proof.
  apply (find_feature_found Fixtures.overlapping_snapshot
           {| id := 9; etype := RELATION |} Fixtures.feature_9).
  vm_compute. reflexivity.
Defined.

Lemma find_feature_lines_first_witness :
  _find_feature Fixtures.lines_only_snapshot {| id := 9; etype := WAY |}
  = Ok (Some Fixtures.feature_9) /\
  _find_feature Fixtures.overlapping_snapshot {| id := 9; etype := WAY |}
  = Ok (Some Fixtures.feature_9).
Proof.
  split.
  - apply (find_feature_lines_first Fixtures.lines_only_snapshot
             {| id := 9; etype := WAY |} [Fixtures.feature_9]);
      [discriminate | vm_compute; reflexivity | vm_compute; reflexivity].
  - apply (find_feature_lines_first Fixtures.overlapping_snapshot
             {| id := 9; etype := WAY |} [Fixtures.feature_9]);
      [discriminate | vm_compute; reflexivity | vm_compute; reflexivity].
Defined.

End FindFeatureFacts.

(** ** ogr.py: remove_layers *)

Module LayersFacts.
Import OgrLayers.

(** From index [i] the loop keeps the layers before [i] and, of the others,
    those whose name is not among [args]; it is over within as many
    iterations as there are layers from [i] on, and one more. *)
Lemma remove_loop_filter (fuel : nat) (args : list string) (i : nat)
    (ds : list (string * list Feature)) :
  (i <= length ds)%nat -> (length ds - i < fuel)%nat ->
  remove_loop fuel args i ds
  = Some (Ok (take i ds ++ filter (fun layer => fst layer ∉ args) (drop i ds))).
Proof.
  revert i ds. induction fuel as [|fuel IH]; intros i ds Hi Hfuel; [lia|].
  simpl. case_bool_decide as Hlt.
  - destruct (lookup_lt_is_Some_2 ds i Hlt) as [layer Hlayer].
    rewrite Hlayer. rewrite (drop_S _ _ _ Hlayer).
    case_bool_decide as Hin.
    + rewrite IH by (rewrite length_delete by eauto; lia).
      rewrite filter_cons_False by (intros Hn; apply Hn, Hin).
      rewrite delete_take_drop.
      rewrite take_app_length' by (rewrite length_take; lia).
      rewrite drop_app_length' by (rewrite length_take; lia).
      reflexivity.
    + rewrite IH by lia.
      rewrite filter_cons_True by exact Hin.
      rewrite (take_S_r _ _ _ Hlayer), <- app_assoc. reflexivity.
  - rewrite take_ge, drop_ge by lia. rewrite app_nil_r. reflexivity.
Qed.

(** X8. [remove_layers] terminates, within one iteration more than the
    source has layers, and leaves exactly the layers whose name is not
    among the arguments, in their order: no layer named in the arguments
    remains, also when several layers follow each other, and no other layer
    is lost. *)
Theorem remove_layers_filter (fuel : nat)
    (ds : list (string * list Feature)) (args : list string) :
  (length ds < fuel)%nat ->
  remove_layers fuel ds args
  = Some (Ok (filter (fun layer => fst layer ∉ args) ds)).
Proof.
  intros Hfuel. unfold remove_layers.
  rewrite remove_loop_filter by lia. reflexivity.
Qed.

(** X9. Removing layers in two calls is removing them in one: after
    [remove_layers] with a first list of names, [remove_layers] with a
    second list gives what one call with both lists gives; so a second
    call with the same names changes nothing. *)
Theorem remove_layers_twice (fuel : nat)
    (ds : list (string * list Feature)) (args1 args2 : list string) :
  (length ds < fuel)%nat ->
  exists ds1,
    remove_layers fuel ds args1 = Some (Ok ds1) /\
    remove_layers fuel ds1 args2 = remove_layers fuel ds (args1 ++ args2) /\
    remove_layers fuel ds1 args1 = Some (Ok ds1).
Proof.
  intros Hfuel. eexists. split; [apply remove_layers_filter, Hfuel|].
  assert (Hlen : (length (filter (fun layer : string * list Feature =>
                                    fst layer ∉ args1) ds) < fuel)%nat).
  { eapply Nat.le_lt_trans; [apply length_filter | exact Hfuel]. }
  rewrite !remove_layers_filter by assumption. split; do 2 f_equal.
  - rewrite list_filter_filter. apply list_filter_iff. intros layer.
    rewrite elem_of_app. tauto.
  - rewrite list_filter_filter. apply list_filter_iff. tauto.
Qed.

Lemma remove_layers_filter_witness :
  remove_layers 6 Fixtures.indexed_source
    ["multilinestrings"; "multipolygons"]
  = Some (Ok [ ("points", []); ("lines", [Fixtures.feature_9]);
               ("linearrings", [Fixtures.ring_9]) ]).
Proof.
  rewrite (remove_layers_filter 6 Fixtures.indexed_source
             ["multilinestrings"; "multipolygons"]) by (simpl; lia).
  vm_compute. reflexivity.
Defined.

Lemma remove_layers_twice_witness :
  exists ds1,
    remove_layers 6 Fixtures.indexed_source ["multilinestrings"]
    = Some (Ok ds1) /\
    remove_layers 6 ds1 ["multipolygons"]
    = remove_layers 6 Fixtures.indexed_source
        (["multilinestrings"] ++ ["multipolygons"]) /\
    remove_layers 6 ds1 ["multilinestrings"] = Some (Ok ds1).
Proof.
  apply (remove_layers_twice 6 Fixtures.indexed_source
           ["multilinestrings"] ["multipolygons"]).
  simpl. lia.
Defined.

End LayersFacts.

(** ** ogr.py: the Config singleton *)

Module ConfigFacts.
Import OgrConfig Invariants.

Lemma construct_initialized (st : class_state) (self : Config)
    (a : arguments) (mkstemp : result (Z * string)) :
  _instance st = Some self -> _initialized self = true ->
  construct a mkstemp st
  = ({| _instance := Some self;
        warned := warned st ++ [msg_initialized];
        closed_fds := closed_fds st |}, Ok self).
Proof.
  intros Hinst Hinit. unfold construct, __init__. rewrite Hinst, Hinit.
  reflexivity.
Qed.

(** X10. Once the instance is initialized, [Config] is a singleton for
    good: every later call, whatever its arguments, returns that instance
    unchanged, so the arguments are ignored, makes no new temporary file,
    and adds one warning. *)
Theorem config_singleton (st : class_state) (self : Config)
    (calls : list (arguments * result (Z * string))) :
  _instance st = Some self -> _initialized self = true ->
  construct_all calls st
  = {| _instance := Some self;
       warned := warned st ++ replicate (length calls) msg_initialized;
       closed_fds := closed_fds st |} /\
  forall a mkstemp,
    snd (construct a mkstemp (construct_all calls st)) = Ok self.
Proof.
  intros Hinst Hinit.
  assert (Hall : construct_all calls st
                 = {| _instance := Some self;
                      warned := warned st
                                ++ replicate (length calls) msg_initialized;
                      closed_fds := closed_fds st |}).
  { revert st Hinst. unfold construct_all.
    induction calls as [|[a mk] calls IH]; intros st Hinst; simpl.
    - rewrite app_nil_r. destruct st; simpl in *. by subst.
    - rewrite (construct_initialized st self a mk Hinst Hinit). simpl.
      rewrite IH by reflexivity. simpl. by rewrite <- app_assoc. }
  split; [exact Hall|]. intros a mk. rewrite Hall.
  rewrite (construct_initialized _ self a mk) by (reflexivity || exact Hinit).
  reflexivity.
Qed.

Lemma construct_default (st : class_state) (a : arguments)
    (fd : Z) (path : string) :
  config_default st -> config_default (fst (construct a (Ok (fd, path)) st)).
Proof.
  unfold config_default, construct, __init__.
  destruct (_instance st) as [self|] eqn:Hinst.
  - intros (Hinit & Hconf & Hsize). rewrite Hinit. simpl.
    rewrite Hinit. auto.
  - intros _. destruct a as [[conf|] [size|]]; simpl;
      rewrite ?Hinst; auto.
Qed.

(** X11. While [tempfile.mkstemp] does not fail, the configuration cannot
    be customised: after any calls of [Config], with any arguments, an
    instance that exists is initialized with the defaults, no config path
    and 4000 for the temporary file size.  The first call has to go
    without arguments, since [object.__new__] takes none, and the later
    ones ignore theirs. *)
Theorem config_never_customised
    (calls : list (arguments * result (Z * string))) (self : Config) :
  Forall (fun c => exists fd path, snd c = Ok (fd, path)) calls ->
  _instance (construct_all calls on_import) = Some self ->
  _initialized self = true /\
  _osm_conf_path self = Some None /\
  _osm_max_tmpfile_size self = Some 4000.
Proof.
  intros Hok Hinst.
  assert (Hdef : config_default (construct_all calls on_import)).
  { clear Hinst. assert (Hstart : config_default on_import) by exact I.
    revert Hstart. generalize on_import. unfold construct_all.
    induction Hok as [|[a mk] calls (fd & path & Hmk) _ IH]; intros st Hst;
      simpl; [exact Hst|].
    simpl in Hmk. subst mk. apply IH, construct_default, Hst. }
  unfold config_default in Hdef. rewrite Hinst in Hdef. exact Hdef.
Qed.

(** X12. On a class without instance a call with an argument fails in
    [__new__] with TypeError and leaves the class without instance: however
    often it is repeated, with whatever arguments, no instance comes to
    be. *)
Theorem config_arguments_rejected
    (calls : list (arguments * result (Z * string))) :
  Forall (fun c => passed (fst c) = true) calls ->
  construct_all calls on_import = on_import /\
  Forall (fun c =>
            construct (fst c) (snd c) on_import
            = (on_import,
               Raise (TypeError
                 "object.__new__() takes exactly one argument (the type to instantiate)")))
    calls.
Proof.
  intros Hall. split.
  - unfold construct_all.
    induction Hall as [|[a mk] calls Ha _ IH]; simpl; [reflexivity|].
    simpl in Ha. unfold construct at 2. simpl. rewrite Ha. exact IH.
  - eapply Forall_impl; [exact Hall|]. intros [a mk] Ha. simpl in *.
    unfold construct. simpl. rewrite Ha. reflexivity.
Qed.

Lemma config_singleton_witness :
  let first := {| osm_conf_path := None; osm_max_tmpfile_size := None |} in
  let later := {| osm_conf_path := Some (Some "osmconf.ini");
                  osm_max_tmpfile_size := Some 100 |} in
  let self := {| _osm_conf_path := Some None;
                 _osm_max_tmpfile_size := Some 4000;
                 _osm_out_tmp := Some "/tmp/a.osm.pbf";
                 _initialized := true |} in
  snd (construct later (Ok (4, "/tmp/b.osm.pbf"))
         (construct_all [(later, Ok (5, "/tmp/c.osm.pbf"))]
            (fst (construct first (Ok (3, "/tmp/a.osm.pbf")) on_import))))
  = Ok self.
Proof.
  intros first later self.
  apply (config_singleton
           (fst (construct first (Ok (3, "/tmp/a.osm.pbf")) on_import))
           self [(later, Ok (5, "/tmp/c.osm.pbf"))]); reflexivity.
Defined.

Lemma config_never_customised_witness :
  let first := {| osm_conf_path := None; osm_max_tmpfile_size := None |} in
  let later := {| osm_conf_path := Some (Some "osmconf.ini");
                  osm_max_tmpfile_size := Some 100 |} in
  let self := {| _osm_conf_path := Some None;
                 _osm_max_tmpfile_size := Some 4000;
                 _osm_out_tmp := Some "/tmp/a.osm.pbf";
                 _initialized := true |} in
  _instance (construct_all [(later, Ok (2, "/tmp/z.osm.pbf"));
                            (first, Ok (3, "/tmp/a.osm.pbf"));
                            (later, Ok (5, "/tmp/c.osm.pbf"))] on_import)
  = Some self /\
  _osm_conf_path self = Some None /\ _osm_max_tmpfile_size self = Some 4000.
Proof.
  intros first later self. split; [reflexivity|].
  apply (config_never_customised
           [(later, Ok (2, "/tmp/z.osm.pbf"));
            (first, Ok (3, "/tmp/a.osm.pbf"));
            (later, Ok (5, "/tmp/c.osm.pbf"))] self);
    [repeat constructor; simpl; eauto | reflexivity].
Defined.

Lemma config_arguments_rejected_witness :
  let later := {| osm_conf_path := Some (Some "osmconf.ini");
                  osm_max_tmpfile_size := None |} in
  construct_all [(later, Ok (3, "/tmp/a.osm.pbf"));
                 (later, Ok (4, "/tmp/b.osm.pbf"))] on_import = on_import.
Proof.
  intros later.
  apply (config_arguments_rejected
           [(later, Ok (3, "/tmp/a.osm.pbf"));
            (later, Ok (4, "/tmp/b.osm.pbf"))]).
  repeat constructor.
Defined.

End ConfigFacts.

(** ** event_store.py: what the calls can and cannot do *)

Module EventStoreMore.
Import EventStore Invariants.

Section WithCollaborators.
Context `{Collaborators}.

Lemma store_sound_on_import (files : gmap string (list Byte.byte)) :
  store_sound files (on_import files).
Proof.
  repeat split; simpl; [by eexists | discriminate | auto].
Qed.

Lemma update_config_path (c : gmap string string) (st : module_state) :
  is_Some (_config st !! "event_store_path") ->
  is_Some (_config (update_config c st) !! "event_store_path").
Proof.
  intros Hsome. simpl. apply lookup_union_is_Some. right. exact Hsome.
Qed.

Lemma configure_sound (files : gmap string (list Byte.byte))
    (config : option (gmap string string)) (st : module_state) :
  store_sound files st -> store_sound files (configure config st).
Proof.
  intros (Hinit & Hpath & Hwriter & Hdisk). unfold configure.
  destruct config as [c|]; [destruct (dict_truthy (Some c))|];
    destruct (_configured st); simpl;
    repeat split; try assumption;
    apply lookup_union_is_Some; right; exact Hpath.
Qed.

(** What [init] does in a store that is not initialized. *)
Lemma init_uninitialized (config : option (gmap string string))
    (st : module_state) :
  _initialized st = false ->
  init config st
  = let st1 :=
      match config with
      | Some c => if _configured st then update_config c st
                  else configure config st
      | None => configure config st
      end in
    match _config st1 !! "event_store_path" with
    | None => (st1, Raise (KeyError "event_store_path"))
    | Some path =>
        match open_wb path with
        | Raise e => (st1, Raise e)
        | Ok _ =>
            ({| _config := _config st1; _configured := _configured st1;
                _initialized := _initialized st1;
                _writer := Some {| name := path; closed := false |};
                disk := <[ path := [] ]> (disk st1);
                warned := warned st1 |}, Ok None)
        end
    end.
Proof. unfold init. intros ->. reflexivity. Qed.

Lemma init_sound (files : gmap string (list Byte.byte))
    (config : option (gmap string string)) (st : module_state) :
  store_sound files st -> store_sound files (fst (init config st)).
Proof.
  intros Hst. pose proof Hst as (Hinit & _).
  rewrite init_uninitialized by exact Hinit. cbv zeta.
  set (st1 := match config with
              | Some c => if _configured st then update_config c st
                          else configure config st
              | None => configure config st
              end).
  assert (Hst1 : store_sound files st1).
  { subst st1. destruct config as [c|]; [destruct (_configured st)|];
      try (apply configure_sound; exact Hst).
    destruct Hst as (? & Hpath & ? & ?).
    repeat split; try assumption. apply update_config_path, Hpath. }
  destruct (_config st1 !! "event_store_path") as [path|] eqn:Hp;
    [|exact Hst1].
  destruct (open_wb path); [|exact Hst1].
  destruct Hst1 as (Hinit1 & Hpath1 & Hwriter1 & Hdisk1).
  split; [exact Hinit1|]. split; [exact Hpath1|]. split.
  - intros w [= <-]. reflexivity.
  - intros p. simpl. destruct (decide (path = p)) as [->|Hne].
    + right. apply lookup_insert_eq.
    + rewrite lookup_insert_ne by exact Hne. apply Hdisk1.
Qed.

Lemma after_sound (files : gmap string (list Byte.byte))
    (st : module_state) (c : call) :
  store_sound files st -> store_sound files (after st c).
Proof.
  intros Hst. destruct c as [config|config|events|]; cbn [after].
  - apply configure_sound, Hst.
  - apply init_sound, Hst.
  - destruct Hst as (Hinit & ?). unfold write_events. rewrite Hinit.
    simpl. repeat split; tauto.
  - destruct Hst as (Hinit & ?). unfold teardown. rewrite Hinit.
    simpl. repeat split; tauto.
Qed.

Lemma after_all_sound (files : gmap string (list Byte.byte))
    (calls : list call) :
  store_sound files (after_all calls (on_import files)).
Proof.
  unfold after_all.
  assert (Hstart := store_sound_on_import files). revert Hstart.
  generalize (on_import files).
  induction calls as [|c calls IH]; intros st Hst; simpl; [exact Hst|].
  apply IH, after_sound, Hst.
Qed.

(** X13. After any calls, [init] neither reports the store as initialized
    already (it never returns -1) nor misses the store path in the config:
    it opens the configured path, the one of its own config argument if
    that names one, binds the writer to it and leaves that file empty, or
    it raises what [open] raises. *)
Theorem init_opens_store_path (calls : list call)
    (files : gmap string (list Byte.byte))
    (config : option (gmap string string)) :
  let st := after_all calls (on_import files) in
  exists path,
    _config (fst (init config st)) !! "event_store_path" = Some path /\
    (forall c p, config = Some c -> c !! "event_store_path" = Some p ->
                 path = p) /\
    match open_wb path with
    | Ok _ =>
        snd (init config st) = Ok None /\
        _writer (fst (init config st))
        = Some {| name := path; closed := false |} /\
        disk (fst (init config st)) !! path = Some []
    | Raise e => snd (init config st) = Raise e
    end.
Proof.
  intros st.
  destruct (after_all_sound files calls) as (Hinit & Hpath & _).
  fold st in Hinit, Hpath.
  rewrite init_uninitialized by exact Hinit. cbv zeta.
  set (st1 := match config with
              | Some c => if _configured st then update_config c st
                          else configure config st
              | None => configure config st
              end).
  assert (Hpath1 : is_Some (_config st1 !! "event_store_path")).
  { subst st1. destruct config as [c|]; [destruct (_configured st)|].
    - apply update_config_path, Hpath.
    - unfold configure.
      destruct (dict_truthy (Some c)); destruct (_configured st); simpl;
        try exact Hpath; apply lookup_union_is_Some; right; exact Hpath.
    - unfold configure. destruct (_configured st); exact Hpath. }
  assert (Hgiven : forall c p, config = Some c ->
                     c !! "event_store_path" = Some p ->
                     _config st1 !! "event_store_path" = Some p).
  { intros c p -> Hc. subst st1. destruct (_configured st) eqn:Hconf.
    - simpl. apply lookup_union_Some_l, Hc.
    - unfold configure. rewrite Hconf.
      assert (Htruthy : dict_truthy (Some c) = true).
      { unfold dict_truthy. apply negb_true_iff, bool_decide_eq_false_2.
        intros ->. rewrite lookup_empty in Hc. discriminate. }
      rewrite Htruthy. simpl. apply lookup_union_Some_l, Hc. }
  destruct Hpath1 as [path Hp]. exists path. rewrite Hp.
  destruct (open_wb path) as [[]|e] eqn:Hopen; simpl.
  - repeat split; [exact Hp | | apply lookup_insert_eq].
    intros c p Hc Hcp. rewrite (Hgiven c p Hc Hcp) in Hp. congruence.
  - repeat split; [exact Hp |].
    intros c p Hc Hcp. rewrite (Hgiven c p Hc Hcp) in Hp. congruence.
Qed.

(** X14. The only thing the module ever does to a file is to empty it:
    after any calls every file is as it was before them or empty. *)
Theorem files_only_truncated (calls : list call)
    (files : gmap string (list Byte.byte)) (path : string) :
  disk (after_all calls (on_import files)) !! path = files !! path \/
  disk (after_all calls (on_import files)) !! path = Some [].
Proof.
  destruct (after_all_sound files calls) as (_ & _ & _ & Hdisk).
  apply Hdisk.
Qed.

(** X15. A writer that [init] opened is never closed: after any calls
    [teardown] does nothing and returns normally, and a writer the module
    holds is still open. *)
Theorem writer_never_closed (calls : list call)
    (files : gmap string (list Byte.byte)) :
  let st := after_all calls (on_import files) in
  teardown st = (st, Ok tt) /\
  forall w, _writer st = Some w -> closed w = false.
Proof.
  intros st.
  destruct (after_all_sound files calls) as (Hinit & _ & Hwriter & _).
  fold st in Hinit, Hwriter.
  split; [unfold teardown; rewrite Hinit; reflexivity | exact Hwriter].
Qed.

(** X16. [init] without a config in a store that was configured before
    goes through [configure] once more and so issues the warning that the
    store is configured already, although [configure] was called once
    only. *)
Theorem init_after_configure_warns (calls : list call)
    (files : gmap string (list Byte.byte))
    (config : option (gmap string string)) :
  let st := configure config (after_all calls (on_import files)) in
  warned (fst (init None st))
  = warned st
    ++ ["Event store already configured. You should not call configure more than once."].
Proof.
  intros st.
  assert (Hst : store_sound files st)
    by (apply configure_sound, after_all_sound).
  destruct Hst as (Hinit & Hpath & _).
  rewrite init_uninitialized by exact Hinit. cbv zeta.
  assert (Hconf : _configured st = true)
    by (unfold st, configure; reflexivity).
  assert (Hwarn : warned (configure None st)
                  = warned st
                    ++ ["Event store already configured. You should not call configure more than once."])
    by (unfold configure; rewrite Hconf; reflexivity).
  assert (Hp : is_Some (_config (configure None st) !! "event_store_path"))
    by (unfold configure; rewrite Hconf; exact Hpath).
  destruct Hp as [path Hp]. rewrite Hp.
  destruct (open_wb path); simpl; exact Hwarn.
Qed.

End WithCollaborators.
End EventStoreMore.

(** ** events.py: more on validation and on the events built *)

Module EventsMore.

Section WithCollaborators.
Context `{Collaborators}.

(** X17. [_validate_modification_args] accepts two features exactly when
    their FIDs are equal, both have a geometry, the two geometries are of
    one type and the current osm_version is the previous one plus 1. *)
Theorem validate_modification_args_iff (prev curr : Feature) :
  _validate_modification_args prev curr = Ok tt <->
  GetFID prev = GetFID curr /\
  exists g1 g2,
    GetGeometryRef prev = Some g1 /\ GetGeometryRef curr = Some g2 /\
    GetGeometryType g1 = GetGeometryType g2 /\
    GetFieldAsInteger osm_version curr
    = GetFieldAsInteger osm_version prev + 1.
Proof.
  split; [apply EventsFacts.validate_modification_ok|].
  intros (Hfid & g1 & g2 & Hg1 & Hg2 & Hty & Hver).
  unfold _validate_modification_args, geometry_of.
  rewrite bool_decide_eq_false_2 by (intros Hne; apply Hne, Hfid).
  rewrite Hg1, Hg2. cbn [mbind result_bind].
  rewrite bool_decide_eq_false_2 by (intros Hne; apply Hne, Hty).
  rewrite bool_decide_eq_false_2 by (intros Hne; apply Hne, Hver).
  reflexivity.
Qed.

(** X18. The FID check comes first: for two features with different FIDs
    [modification_event] raises ValueError('FID mismatch.') whatever else
    holds of them, also when one of them has no geometry or the versions
    are out of order. *)
Theorem modification_event_fid_mismatch (prev curr : Feature) :
  GetFID prev ≠ GetFID curr ->
  modification_event prev curr = Raise (ValueError "FID mismatch.").
Proof.
  intros Hfid.
  unfold modification_event, modification_event_in,
    _validate_modification_args.
  rewrite bool_decide_eq_true_2 by exact Hfid. reflexivity.
Qed.

(** X19. [modification_event] raises for every pair of features; no call
    returns an event. *)
Theorem modification_event_always_raises (prev curr : Feature) :
  exists e, modification_event prev curr = Raise e.
Proof.
  pose proof (EventsFacts.modification_event_never_returns prev curr) as Hno.
  destruct (modification_event prev curr) as [event|e]; [discriminate|].
  by exists e.
Qed.

(** X20. An event [creation_event] returns describes its feature: the
    feature passed validation, the event carries the feature's FID, its
    osm_version and its parsed osm_timestamp, it has as many property keys
    as values, and its geometry field is the one of the feature's geometry
    type, a Point, LineString or Polygon, converted by the function for
    that type. *)
Theorem creation_event_returns (feature : Feature) (event : CreationEvent.t) :
  creation_event feature = Ok event ->
  validate_osm_feature feature = Ok tt /\
  CreationEvent.id event = GetFID feature /\
  CreationEvent.version event = GetFieldAsInteger osm_version feature /\
  fromisoformat (GetFieldAsISO8601DateTime osm_timestamp feature)
  = Ok (CreationEvent.timestamp event) /\
  length (key (CreationEvent.properties event))
  = length (value (CreationEvent.properties event)) /\
  exists geom,
    GetGeometryRef feature = Some geom /\
    match CreationEvent.geometry event with
    | point p =>
        GetGeometryType geom = wkbPoint /\ p = to_point_message geom
    | linestring l =>
        GetGeometryType geom = wkbLineString /\ l = to_linestring_message geom
    | polygon p =>
        GetGeometryType geom = wkbPolygon /\ p = to_polygon_message geom
    end.
Proof.
  unfold creation_event, _validate_creation_event_args.
  destruct (validate_osm_feature feature) as [[]|e]; [|discriminate].
  cbn [mbind result_bind].
  rewrite (EventsFacts.global_bound _ "gisevents") by reflexivity.
  cbn [mbind result_bind].
  rewrite (EventsFacts.global_bound _ "datetime") by reflexivity.
  destruct (fromisoformat _) as [dt|e]; [|discriminate].
  cbn [mbind result_bind].
  assert (Hprops :
    forall props : result Properties,
      props = (if truthy (GetFieldAsString all_tags feature)
               then tags ← global events_globals "json"
                             (json_loads (GetFieldAsString all_tags feature));
                    Ok (tag_properties tags)
               else Ok {| key := []; value := [] |}) ->
      forall p, props = Ok p -> length (key p) = length (value p)).
  { intros props -> p. destruct (truthy _).
    - rewrite (EventsFacts.global_bound _ "json") by reflexivity.
      destruct (json_loads _) as [tags|e]; [|discriminate].
      cbn [mbind result_bind]. intros [= <-]. simpl.
      by rewrite !length_map.
    - intros [= <-]. reflexivity. }
  specialize (Hprops _ eq_refl).
  destruct (if truthy _ then _ else _) as [props|e]; [|discriminate].
  specialize (Hprops props eq_refl).
  cbn [mbind result_bind]. unfold geometry_of.
  destruct (GetGeometryRef feature) as [geom|]; [|discriminate].
  cbn [mbind result_bind].
  destruct (GetGeometryType geom) eqn:Hty; try discriminate;
    rewrite (EventsFacts.global_bound _ "gisevents") by reflexivity;
    intros [= <-]; simpl; repeat split; try assumption;
    exists geom; repeat split; assumption.
Qed.

(** X21. A tag blob that is not empty is parsed before the geometry is
    looked at: when validation and the timestamp go through, an error of
    the JSON parser is the error of [creation_event], whatever the
    geometry; and when the blob parses, an event that is returned lists
    the keys and the values of the dict in the dict's order. *)
Theorem creation_event_tags (feature : Feature) (ts : Timestamp) :
  validate_osm_feature feature = Ok tt ->
  fromisoformat (GetFieldAsISO8601DateTime osm_timestamp feature) = Ok ts ->
  GetFieldAsString all_tags feature ≠ "" ->
  (forall e, json_loads (GetFieldAsString all_tags feature) = Raise e ->
             creation_event feature = Raise e) /\
  (forall tags event,
      json_loads (GetFieldAsString all_tags feature) = Ok tags ->
      creation_event feature = Ok event ->
      CreationEvent.properties event
      = {| key := map fst tags; value := map snd tags |}).
Proof.
  intros Hval Hts Htags.
  assert (Htruthy : truthy (GetFieldAsString all_tags feature) = true).
  { unfold truthy. apply negb_true_iff, String.eqb_neq, Htags. }
  unfold creation_event, _validate_creation_event_args.
  rewrite Hval. cbn [mbind result_bind].
  rewrite (EventsFacts.global_bound _ "gisevents") by reflexivity.
  cbn [mbind result_bind].
  rewrite (EventsFacts.global_bound _ "datetime") by reflexivity.
  rewrite Hts. cbn [mbind result_bind]. rewrite Htruthy.
  rewrite (EventsFacts.global_bound _ "json") by reflexivity.
  split.
  - intros e ->. reflexivity.
  - intros tags event ->. cbn [mbind result_bind]. unfold geometry_of.
    destruct (GetGeometryRef feature) as [geom|]; [|discriminate].
    cbn [mbind result_bind].
    destruct (GetGeometryType geom); try discriminate;
      rewrite (EventsFacts.global_bound _ "gisevents") by reflexivity;
      intros [= <-]; reflexivity.
Qed.

End WithCollaborators.

Lemma modification_event_fid_mismatch_witness :
  modification_event Sample.point_feature_1 Fixtures.point_feature_2
  = Raise (ValueError "FID mismatch.").
Proof.
  apply (modification_event_fid_mismatch
           Sample.point_feature_1 Fixtures.point_feature_2).
  simpl. discriminate.
Defined.

Lemma creation_event_returns_witness :
  CreationEvent.id
    {| CreationEvent.id := 5; CreationEvent.version := 2;
       CreationEvent.timestamp := {| seconds := 1672531200; nanos := 0 |};
       CreationEvent.properties :=
         {| key := ["testKey"]; value := ["testValue"] |};
       CreationEvent.geometry :=
         point {| lon := 10000000; lat := 20000000 |} |}
  = GetFID Fixtures.point_feature_tagged.
Proof.
  eapply (creation_event_returns Fixtures.point_feature_tagged).
  vm_compute. reflexivity.
Defined.

Lemma creation_event_tags_witness :
  creation_event Fixtures.point_feature_bad_tags
  = Raise (JSONDecodeError "Expecting value").
Proof.
  eapply (creation_event_tags Fixtures.point_feature_bad_tags
            {| seconds := 1672531200; nanos := 0 |});
    [reflexivity | reflexivity | discriminate | reflexivity].
Defined.

End EventsMore.

(** ** ogr.py: more on runs of find_changes *)

Module FindChangesMore.
Import Ogr Invariants.

Section WithCollaborators.
Context `{Collaborators}.
Variables prev curr : gmap string (list Feature).

Lemma process_all_app (osc1 osc2 : list ChangeInfo) (r : run) :
  process_all prev curr (osc1 ++ osc2) r
  = process_all prev curr osc1 r ≫= process_all prev curr osc2.
Proof.
  revert r. induction osc1 as [|change_info osc1 IH]; intros r; simpl.
  - reflexivity.
  - destruct (process prev curr r change_info) as [r'|e]; [|reflexivity].
    cbn [mbind result_bind]. apply IH.
Qed.

Lemma traced_continued (events : list Event)
    (lks : list (source * ElementIdentifier)) (change_info : ChangeInfo)
    (r : run) :
  traced change_info (continued events lks r)
  = continued events lks (traced change_info r).
Proof.
  unfold traced, continued, looked_up.
  destruct (change_type change_info); simpl; f_equal;
    by rewrite <- ?app_assoc.
Qed.

(** What came before does not matter to a step, but for the blacklist. *)
Lemma process_continued (events : list Event)
    (lks : list (source * ElementIdentifier)) (change_info : ChangeInfo)
    (r : run) :
  process prev curr (continued events lks r) change_info
  = match process prev curr r change_info with
    | Ok r' => Ok (continued events lks r')
    | Raise e => Raise e
    end.
Proof.
  destruct (decide (element_identifier change_info ∈ _blacklist r))
    as [Hin|Hnin].
  - rewrite !OgrFacts.process_blacklisted by exact Hin. reflexivity.
  - rewrite !OgrFacts.process_fresh by exact Hnin.
    rewrite traced_continued.
    destruct (event_for prev curr change_info) as [[event|]|e];
      try reflexivity.
    unfold appended, continued. simpl. by rewrite app_assoc.
Qed.

Lemma process_all_continued (events : list Event)
    (lks : list (source * ElementIdentifier)) (osc_info : list ChangeInfo)
    (r : run) :
  process_all prev curr osc_info (continued events lks r)
  = match process_all prev curr osc_info r with
    | Ok r' => Ok (continued events lks r')
    | Raise e => Raise e
    end.
Proof.
  revert r. induction osc_info as [|change_info rest IH]; intros r; simpl.
  - reflexivity.
  - rewrite process_continued.
    destruct (process prev curr r change_info) as [r'|e]; [|reflexivity].
    cbn [mbind result_bind]. apply IH.
Qed.

(** X22. The blacklist is what one call hands to the next: a call of
    [find_changes] on a change log in two parts returns exactly when the
    call on the first part returns and the call on the second part, made
    with the blacklist the first one left, returns too; its events and its
    lookups are those of the first call followed by those of the second,
    and its blacklist is the one after the second. *)
Theorem find_changes_app (osc1 osc2 : list ChangeInfo)
    (blacklist : list ElementIdentifier) (r : run) :
  find_changes prev curr (osc1 ++ osc2) blacklist = Ok r <->
  exists r1 r2,
    find_changes prev curr osc1 blacklist = Ok r1 /\
    find_changes prev curr osc2 (_blacklist r1) = Ok r2 /\
    _blacklist r = _blacklist r2 /\
    result_events r = result_events r1 ++ result_events r2 /\
    lookups r = lookups r1 ++ lookups r2.
Proof.
  unfold find_changes. rewrite process_all_app.
  destruct (process_all prev curr osc1 _) as [r1|e] eqn:H1;
    cbn [mbind result_bind].
  - replace r1 with (continued (result_events r1) (lookups r1)
                       {| _blacklist := _blacklist r1; result_events := [];
                          lookups := [] |}) at 1
      by (unfold continued; destruct r1; simpl; by rewrite !app_nil_r).
    rewrite process_all_continued. split.
    + destruct (process_all prev curr osc2 _) as [r2|e] eqn:H2;
        [|discriminate].
      intros [= <-]. exists r1, r2. repeat split; assumption.
    + intros (r1' & r2 & [= <-] & -> & Hbl & Hev & Hlk).
      f_equal. unfold continued. destruct r; simpl in *. by subst.
  - split; [discriminate|]. intros (r1 & r2 & Hr1 & _). discriminate.
Qed.

Lemma event_for_creation (change_info : ChangeInfo) (event : Event) :
  event_for prev curr change_info = Ok (Some event) ->
  change_type change_info = CREATE /\ exists e, event = Creation e.
Proof.
  unfold event_for. destruct (change_type change_info).
  - destruct (_find_feature curr _) as [[feature|]|e]; try discriminate.
    cbn [mbind result_bind].
    destruct (creation_event feature) as [ce|e]; [|discriminate].
    intros [= <-]. eauto.
  - destruct (_find_feature prev _) as [[feat1|]|e]; try discriminate;
      cbn [mbind result_bind];
      destruct (_find_feature curr _) as [[feat2|]|e']; try discriminate.
    cbn [mbind result_bind].
    pose proof (EventsFacts.modification_event_never_returns feat1 feat2).
    destruct (modification_event feat1 feat2); discriminate.
  - destruct (_find_feature prev _) as [[feature|]|e]; discriminate.
Qed.

(** X23. A run of [find_changes] that returns holds creation events only,
    and each of its surviving records is a creation: a modification or a
    deletion whose features are found ends the run with an exception. *)
Theorem find_changes_returns_creations (osc_info : list ChangeInfo)
    (blacklist : list ElementIdentifier) (r : run) :
  find_changes prev curr osc_info blacklist = Ok r ->
  Forall (fun event => exists e, event = Creation e) (result_events r) /\
  Forall (fun change_info => change_type change_info = CREATE)
    (surviving prev curr osc_info blacklist).
Proof.
  intros Hrun. unfold find_changes in Hrun.
  destruct (OgrFacts.process_all_events prev curr _ _ _ Hrun)
    as (events & Hevents & Hall).
  simpl in Hevents, Hall. rewrite Hevents. clear Hevents Hrun.
  induction Hall as [|change_info event kept events Hfor _ [IH1 IH2]].
  - split; constructor.
  - apply event_for_creation in Hfor as [Hkind Hev].
    split; constructor; assumption.
Qed.

(** X24. A deletion record that is not blacklisted and whose feature is in
    the previous snapshot ends the run with NotImplementedError, and with
    it the events of all the records before it are lost to the caller. *)
Theorem find_changes_deletion_aborts (before rest : list ChangeInfo)
    (change_info : ChangeInfo) (blacklist : list ElementIdentifier)
    (r : run) (feature : Feature) :
  find_changes prev curr before blacklist = Ok r ->
  element_identifier change_info ∉ _blacklist r ->
  change_type change_info = DELETE ->
  _find_feature prev (element_identifier change_info) = Ok (Some feature) ->
  find_changes prev curr (before ++ change_info :: rest) blacklist
  = Raise NotImplementedError.
Proof.
  intros Hbefore Hnin Hkind Hfound. unfold find_changes in *.
  rewrite process_all_app, Hbefore. cbn [mbind result_bind].
  rewrite OgrFacts.process_all_cons, OgrFacts.process_fresh by exact Hnin.
  unfold event_for. rewrite Hkind, Hfound. reflexivity.
Qed.

(** X25. A run appends to the blacklist only identifiers that are not on
    it: a blacklist without repetitions stays without repetitions. *)
Theorem find_changes_blacklist_NoDup (osc_info : list ChangeInfo)
    (blacklist : list ElementIdentifier) (r : run) :
  NoDup blacklist ->
  find_changes prev curr osc_info blacklist = Ok r ->
  NoDup (_blacklist r).
Proof.
  unfold find_changes.
  change blacklist with
    (_blacklist {| _blacklist := blacklist; result_events := [];
                   lookups := [] |}) at 1.
  generalize {| _blacklist := blacklist; result_events := [];
                lookups := [] |}.
  induction osc_info as [|change_info rest IH]; intros r0 Hnodup.
  - intros [= <-]. exact Hnodup.
  - rewrite OgrFacts.process_all_cons.
    destruct (process prev curr r0 change_info) as [r1|e] eqn:Hstep;
      [|discriminate].
    cbn [mbind result_bind]. apply IH.
    destruct (decide (element_identifier change_info ∈ _blacklist r0))
      as [Hin|Hnin].
    + rewrite OgrFacts.process_blacklisted in Hstep by exact Hin.
      injection Hstep as <-. exact Hnodup.
    + rewrite OgrFacts.process_fresh in Hstep by exact Hnin.
      assert (Hbl : _blacklist (traced change_info r0) = _blacklist r0)
        by (unfold traced; destruct (change_type change_info); reflexivity).
      destruct (event_for prev curr change_info) as [[event|]|e];
        [| |discriminate]; injection Hstep as <-; simpl; rewrite Hbl.
      * exact Hnodup.
      * apply NoDup_app. split; [exact Hnodup|]. split.
        -- intros x Hx Hx'. apply list_elem_of_singleton in Hx'. by subst.
        -- apply NoDup_singleton.
Qed.

End WithCollaborators.

Lemma find_changes_returns_creations_witness :
  Forall (fun change_info => change_type change_info = CREATE)
    (surviving Sample.prev_snapshot Sample.curr_snapshot Sample.osc_info []).
Proof.
  destruct (find_changes Sample.prev_snapshot Sample.curr_snapshot
              Sample.osc_info []) as [r|e] eqn:Hrun;
    [|vm_compute in Hrun; discriminate Hrun].
  apply (find_changes_returns_creations Sample.prev_snapshot
           Sample.curr_snapshot Sample.osc_info [] r Hrun).
Defined.

Lemma find_changes_deletion_aborts_witness :
  find_changes Fixtures.prev_with_way_9 Sample.curr_snapshot
    ([Sample.create_node_5] ++ Fixtures.delete_way_9 :: [Sample.create_way_1])
    []
  = Raise NotImplementedError.
Proof.
  destruct (find_changes Fixtures.prev_with_way_9 Sample.curr_snapshot
              [Sample.create_node_5] []) as [r|e] eqn:Hrun;
    [|vm_compute in Hrun; discriminate Hrun].
  apply (find_changes_deletion_aborts Fixtures.prev_with_way_9
           Sample.curr_snapshot [Sample.create_node_5] [Sample.create_way_1]
           Fixtures.delete_way_9 [] r Fixtures.feature_9 Hrun).
  - vm_compute in Hrun. injection Hrun as <-. apply not_elem_of_nil.
  - reflexivity.
  - vm_compute. reflexivity.
Defined.

Lemma find_changes_blacklist_NoDup_witness :
  exists r,
    find_changes Sample.prev_snapshot Sample.curr_snapshot Sample.osc_info []
    = Ok r /\ NoDup (_blacklist r).
Proof.
  destruct (find_changes Sample.prev_snapshot Sample.curr_snapshot
              Sample.osc_info []) as [r|e] eqn:Hrun;
    [|vm_compute in Hrun; discriminate Hrun].
  exists r. split; [reflexivity|].
  apply (find_changes_blacklist_NoDup Sample.prev_snapshot
           Sample.curr_snapshot Sample.osc_info [] r); [constructor|exact Hrun].
Defined.

End FindChangesMore.

(** ** events.py: more on the event store from a snapshot *)

Module SnapshotMore.
Import Snapshot Invariants.

Section WithCollaborators.
Context `{Collaborators}.

Lemma step_not_returned (ds : gmap string (list Feature))
    (store : EventStore.module_state) (c : control) :
  EventStore._initialized store = false ->
  not_returned c -> not_returned (step ds store c).
Proof.
  intros Hinit Hc. destruct c as [[|name rest] events|rest [feature|] events|r s];
    simpl.
  - rewrite EventStoreFacts.write_events_uninitialized by exact Hinit.
    exact I.
  - destruct (layer_by_name ds name); exact I.
  - destruct (creation_event feature); exact I.
  - exact I.
  - exact Hc.
Qed.

Lemma steps_not_returned (ds : gmap string (list Feature))
    (store : EventStore.module_state) (n : nat) :
  EventStore._initialized store = false ->
  not_returned (steps n ds store).
Proof.
  intros Hinit. induction n as [|n IH]; [exact I|].
  rewrite SnapshotFacts.steps_S. apply step_not_returned; assumption.
Qed.

(** X26. [initialize_eventstore_from_snapshot] never returns normally:
    after any calls of the event store module, for every snapshot and
    however long it runs, a call that is over is over with an exception. *)
Theorem initialize_eventstore_from_snapshot_never_returns
    (calls : list EventStore.call) (files : gmap string (list Byte.byte))
    (ds : gmap string (list Feature)) (fuel : nat)
    (r : result unit) (store' : EventStore.module_state) :
  initialize_eventstore_from_snapshot fuel ds
    (EventStore.after_all calls (EventStore.on_import files))
  = Some (r, store') ->
  exists e, r = Raise e.
Proof.
  unfold initialize_eventstore_from_snapshot.
  pose proof (steps_not_returned ds
                (EventStore.after_all calls (EventStore.on_import files)) fuel
                (EventStoreFacts.after_all_uninitialized calls
                   (EventStore.on_import files) eq_refl))
    as Hnot.
  destruct (steps fuel ds _) as [| |[[]|e] store'']; try discriminate.
  - contradiction.
  - intros [= <- <-]. by exists e.
Qed.

(** X27. On a snapshot whose three layers are all empty the call goes
    through the layers and, with no event at all, reaches [write_events],
    which raises RuntimeError('Event store not initialized'): the call is
    over after seven steps with that error. *)
Theorem initialize_eventstore_from_snapshot_empty
    (calls : list EventStore.call) (files : gmap string (list Byte.byte))
    (ds : gmap string (list Feature)) (fuel : nat) :
  ds !! "points" = Some [] -> ds !! "lines" = Some [] ->
  ds !! "linearrings" = Some [] ->
  (7 <= fuel)%nat ->
  let store := EventStore.after_all calls (EventStore.on_import files) in
  initialize_eventstore_from_snapshot fuel ds store
  = Some (Raise (RuntimeError "Event store not initialized"), store).
Proof.
  intros Hpoints Hlines Hrings Hfuel store.
  unfold initialize_eventstore_from_snapshot.
  replace fuel with ((fuel - 7) + 7)%nat by lia.
  rewrite (SnapshotFacts.steps_return ds store store
             (Raise (RuntimeError "Event store not initialized")) 7);
    [reflexivity|].
  assert (Hlayer : forall name rest events,
             ds !! name = Some [] ->
             step ds store (step ds store (ForLayer (name :: rest) events))
             = ForLayer rest events).
  { intros name rest events Hname. unfold step at 2, layer_by_name.
    rewrite Hname. reflexivity. }
  change (steps 7 ds store) with
    (step ds store
       (step ds store (step ds store
          (step ds store (step ds store
             (step ds store (step ds store start))))))).
  unfold start.
  rewrite (Hlayer "points") by exact Hpoints.
  rewrite (Hlayer "lines") by exact Hlines.
  rewrite (Hlayer "linearrings") by exact Hrings.
  cbn [step map].
  rewrite EventStoreFacts.write_events_uninitialized
    by (apply EventStoreFacts.after_all_uninitialized; reflexivity).
  reflexivity.
Qed.

End WithCollaborators.

Lemma initialize_eventstore_from_snapshot_never_returns_witness :
  exists e,
    Raise (ValueError "Feature has no osm_version") = @Raise unit e.
Proof.
  apply (initialize_eventstore_from_snapshot_never_returns
           [] ∅ Sample.unversioned_snapshot 2
           (Raise (ValueError "Feature has no osm_version"))
           (EventStore.on_import ∅)).
  vm_compute. reflexivity.
Defined.

Lemma initialize_eventstore_from_snapshot_empty_witness :
  initialize_eventstore_from_snapshot 7 Fixtures.empty_snapshot
    (EventStore.after_all [EventStore.call_init None] (EventStore.on_import ∅))
  = Some (Raise (RuntimeError "Event store not initialized"),
          EventStore.after_all [EventStore.call_init None]
            (EventStore.on_import ∅)).
Proof.
  apply (initialize_eventstore_from_snapshot_empty
           [EventStore.call_init None] ∅ Fixtures.empty_snapshot 7);
    [vm_compute; reflexivity | vm_compute; reflexivity
     | vm_compute; reflexivity | lia].
Defined.

End SnapshotMore.
